(** * Session and streaming protocol layer of the SAP DM agent chat

  A shallow embedding of [app_local.py] (REST adapter over [requests]) and
  [app_agentEngine.py] (Vertex AI Agent Engine adapter), followed by the
  properties of the specification that concern them.

  Python text is a sequence of Unicode code points, bytes are [Byte.byte],
  decoded JSON is the [value] tree, exceptions are explicit results, and
  the Streamlit calls are recorded in an explicit [world]. *)

From Stdlib Require Import List ZArith NArith QArith Qabs Bool String Ascii Lia DecimalString.
From Stdlib.Strings Require Import Byte.
Import ListNotations.
Close Scope Q_scope.

Set Warnings "-register-all".

(* ================================================================== *)
(** ** Python text *)

Module Text.

(** A [str] is a sequence of code points. *)
Definition str := list N.
Definition bytes := list byte.

(** ASCII literal. *)
Definition py (s : string) : str := map N_of_ascii (list_ascii_of_string s).

(** ASCII literal in which every apostrophe stands for a double quote
    (code point 34); used to write JSON documents. *)
Definition pyq (s : string) : str :=
  map (fun c => if N.eqb c 39 then 34%N else c) (py s).

Definition b (s : string) : bytes := list_byte_of_string s.
Definition bq (s : string) : bytes :=
  map (fun x => if Byte.eqb x "'"%byte then x22 else x) (b s).

Fixpoint str_eqb (x y : str) : bool :=
  match x, y with
  | [], [] => true
  | c :: x', d :: y' => N.eqb c d && str_eqb x' y'
  | _, _ => false
  end.

(** [s.startswith(p)] *)
Fixpoint startswith (p s : str) : bool :=
  match p, s with
  | [], _ => true
  | c :: p', d :: s' => N.eqb c d && startswith p' s'
  | _ :: _, [] => false
  end.

(** [p in s] for two strings. *)
Fixpoint contains (p s : str) : bool :=
  startswith p s || match s with [] => false | _ :: s' => contains p s' end.

(** [str.isspace] on one code point (CPython's [Py_UNICODE_ISSPACE]). *)
Definition isspace (c : N) : bool :=
  ((9 <=? c) && (c <=? 13) || (28 <=? c) && (c <=? 32)
   || (c =? 133) || (c =? 160) || (c =? 5760)
   || (8192 <=? c) && (c <=? 8202)
   || (c =? 8232) || (c =? 8233) || (c =? 8239) || (c =? 8287)
   || (c =? 12288))%N.

Fixpoint lstrip (s : str) : str :=
  match s with
  | [] => []
  | c :: s' => if isspace c then lstrip s' else s
  end.

Definition rstrip (s : str) : str := rev (lstrip (rev s)).

(** [s.strip()] *)
Definition strip (s : str) : str := rstrip (lstrip s).

(** Truth value of a string: non-empty. *)
Definition nonempty (s : str) : bool :=
  match s with [] => false | _ => true end.

(** [s.replace(a, r)] for a one-character pattern [a]. *)
Definition replace1 (a : N) (r : str) (s : str) : str :=
  flat_map (fun c => if N.eqb c a then r else [c]) s.

(** [str(n)] for an integer. *)
Definition str_of_Z (z : Z) : str := py (NilZero.string_of_int (Z.to_int z)).

(** [bytes.decode('utf-8')], strict: [None] stands for
    [UnicodeDecodeError]. *)
Definition cont (x : N) : bool := ((128 <=? x) && (x <=? 191))%N.

Fixpoint utf8_decode (l : list N) : option str :=
  match l with
  | [] => Some []
  | b0 :: r =>
    if (b0 <? 128)%N then option_map (cons b0) (utf8_decode r)
    else if ((194 <=? b0) && (b0 <=? 223))%N then
      match r with
      | b1 :: r1 =>
        if cont b1
        then option_map (cons ((b0 - 192) * 64 + (b1 - 128))%N) (utf8_decode r1)
        else None
      | _ => None
      end
    else if ((224 <=? b0) && (b0 <=? 239))%N then
      match r with
      | b1 :: b2 :: r2 =>
        let c := ((b0 - 224) * 4096 + (b1 - 128) * 64 + (b2 - 128))%N in
        if cont b1 && cont b2 && (2048 <=? c)%N
           && negb ((55296 <=? c) && (c <=? 57343))%N
        then option_map (cons c) (utf8_decode r2)
        else None
      | _ => None
      end
    else if ((240 <=? b0) && (b0 <=? 244))%N then
      match r with
      | b1 :: b2 :: b3 :: r3 =>
        let c := ((b0 - 240) * 262144 + (b1 - 128) * 4096
                  + (b2 - 128) * 64 + (b3 - 128))%N in
        if cont b1 && cont b2 && cont b3
           && (65536 <=? c)%N && (c <=? 1114111)%N
        then option_map (cons c) (utf8_decode r3)
        else None
      | _ => None
      end
    else None
  end.

Definition decode_utf8 (l : bytes) : option str :=
  utf8_decode (map Byte.to_N l).

End Text.
Import Text.

(* ================================================================== *)
(** ** Python values, as [json] produces them *)

Module Py.

(** A float: a finite number (its exact value), an infinity or NaN. *)
Inductive pyfloat :=
| FFinite (q : Q)
| FInf (negative : bool)
| FNan.

Inductive value :=
| VNone
| VBool (x : bool)
| VInt (z : Z)
| VFloat (f : pyfloat)
| VStr (s : str)
| VList (l : list value)
| VDict (d : list (str * value)).

(** Truth value of an object ([if x:], [x or y], [not x]). *)
Definition truthy (v : value) : bool :=
  match v with
  | VNone => false
  | VBool x => x
  | VInt z => negb (z =? 0)%Z
  | VFloat (FFinite q) => negb (Qeq_bool q 0)
  | VFloat _ => true
  | VStr s => nonempty s
  | VList l => match l with [] => false | _ => true end
  | VDict d => match d with [] => false | _ => true end
  end.

(** Dictionaries keep insertion order; keys are unique. *)
Fixpoint dict_get (k : str) (d : list (str * value)) : option value :=
  match d with
  | [] => None
  | (k', v) :: d' => if str_eqb k k' then Some v else dict_get k d'
  end.

Fixpoint dict_set (k : str) (v : value) (d : list (str * value))
  : list (str * value) :=
  match d with
  | [] => [(k, v)]
  | (k', v') :: d' =>
    if str_eqb k k' then (k', v) :: d' else (k', v') :: dict_set k v d'
  end.

(** [d.get(k, default)] *)
Definition get (k : str) (default : value) (d : list (str * value)) : value :=
  match dict_get k d with Some v => v | None => default end.

Definition has_key (k : str) (d : list (str * value)) : bool :=
  match dict_get k d with Some _ => true | None => false end.

Definition is_none (v : value) : bool :=
  match v with VNone => true | _ => false end.

(** Exception classes that occur in the two programs.  The first five
    are [requests.exceptions.RequestException] and subclasses of it;
    [JSONDecodeError] (of the [json] module) and [UnicodeDecodeError]
    are subclasses of [ValueError]; [RequestsJSONDecodeError] is the
    class [requests] raises from [Response.json], a subclass both of
    [RequestException] and of [json.JSONDecodeError]; [RecursionError]
    is a [RuntimeError]; [RerunException] is Streamlit's script-control
    signal and does not derive from [Exception]. *)
Inductive exn_class :=
| RequestException
| ConnectionError
| Timeout
| HTTPError
| ChunkedEncodingError
| RequestsJSONDecodeError
| ValueError
| JSONDecodeError
| UnicodeDecodeError
| RecursionError
| TypeError
| KeyError
| AttributeError
| OtherException
| RerunException.

Record exn := mk_exn { exn_kind : exn_class; exn_text : str }.

Definition is_RequestException (e : exn) : bool :=
  match exn_kind e with
  | RequestException | ConnectionError | Timeout | HTTPError
  | ChunkedEncodingError | RequestsJSONDecodeError => true
  | _ => false
  end.

Definition is_JSONDecodeError (e : exn) : bool :=
  match exn_kind e with
  | JSONDecodeError | RequestsJSONDecodeError => true
  | _ => false
  end.

Definition is_ValueError (e : exn) : bool :=
  match exn_kind e with
  | ValueError | JSONDecodeError | UnicodeDecodeError
  | RequestsJSONDecodeError => true
  | _ => false
  end.

Definition is_Exception (e : exn) : bool :=
  match exn_kind e with
  | RerunException => false
  | _ => true
  end.

Inductive result (A : Type) :=
| Ok (a : A)
| Raise (e : exn).
Arguments Ok {A} a.
Arguments Raise {A} e.

End Py.
Import Py.

(* ================================================================== *)
(** ** The JSON decoder

    [json_loads] stands for Python's [json.loads] on a [str].  It raises
    [JSONDecodeError] on a text that is not JSON, and what the
    interpreter raises on a text beyond its limits: [RecursionError]
    when arrays and objects are nested deeper than the decoder may
    recurse, and a plain [ValueError] for an integer literal of more
    digits than [sys.get_int_max_str_digits()].  The adapters below take
    their decoder from the environment, so the general theorems hold
    for every decoder; this one evaluates the worked examples. *)

Module Json.

(** The limits of the interpreter the decoder runs in: how many arrays
    and objects may be open one inside the other when the decoder is
    called, and the longest integer literal that is converted (0 for no
    limit). *)
Record limits := mk_limits {
  max_nesting : nat;
  int_max_str_digits : nat
}.

(** The limits of the worked examples: a nesting of 1000, CPython's
    default recursion limit (what is left of it when the decoder is
    called is less, and later interpreters bound the recursion of the
    decoder apart), and its default of 4300 digits.  The worked inputs
    lie far inside or far beyond both. *)
Definition default_limits : limits := mk_limits 1000 4300.

(** What scanning a value comes to: the value and the text after it, a
    text that is not JSON, or an exception of the interpreter. *)
Inductive scan :=
| Scanned (v : value) (rest : str)
| Invalid
| Aborted (e : exn).

Definition of_option (o : option (value * str)) : scan :=
  match o with
  | Some (v, rest) => Scanned v rest
  | None => Invalid
  end.

Definition recursion_error (what : string) : exn :=
  mk_exn RecursionError
    (py "maximum recursion depth exceeded while decoding a JSON "
       ++ py what ++ py " from a unicode string").

Definition too_many_digits (limit digits : nat) : exn :=
  mk_exn ValueError
    (py "Exceeds the limit (" ++ str_of_Z (Z.of_nat limit)
       ++ py " digits) for integer string conversion: value has "
       ++ str_of_Z (Z.of_nat digits)
       ++ py " digits; use sys.set_int_max_str_digits() to increase the limit").

Definition is_ws (c : N) : bool :=
  ((c =? 32) || (c =? 9) || (c =? 10) || (c =? 13))%N.

Fixpoint skip_ws (s : str) : str :=
  match s with
  | c :: s' => if is_ws c then skip_ws s' else s
  | [] => []
  end.

Definition is_digit (c : N) : bool := ((48 <=? c) && (c <=? 57))%N.

Definition hex_digit (c : N) : option N :=
  if is_digit c then Some (c - 48)%N
  else if ((97 <=? c) && (c <=? 102))%N then Some (c - 87)%N
  else if ((65 <=? c) && (c <=? 70))%N then Some (c - 55)%N
  else None.

(** Four hexadecimal digits of a [\uXXXX] escape. *)
Definition hex4 (s : str) : option (N * str) :=
  match s with
  | h1 :: h2 :: h3 :: h4 :: r =>
    match hex_digit h1, hex_digit h2, hex_digit h3, hex_digit h4 with
    | Some a, Some b, Some c, Some d =>
      Some ((a * 4096 + b * 256 + c * 16 + d)%N, r)
    | _, _, _, _ => None
    end
  | _ => None
  end.

Definition simple_escape (c : N) : option N :=
  (if c =? 34 then Some 34 else if c =? 92 then Some 92
   else if c =? 47 then Some 47 else if c =? 98 then Some 8
   else if c =? 102 then Some 12 else if c =? 110 then Some 10
   else if c =? 114 then Some 13 else if c =? 116 then Some 9
   else None)%N.

(** The characters of a string literal after its opening quote, up to
    the closing quote; control characters are refused (strict mode) and
    an escaped surrogate pair is joined. *)
Fixpoint scan_string (fuel : nat) (s : str) : option (str * str) :=
  match fuel with
  | O => None
  | S fuel' =>
    match s with
    | [] => None
    | c :: r =>
      if (c =? 34)%N then Some ([], r)
      else if (c <? 32)%N then None
      else if (c =? 92)%N then
        match r with
        | [] => None
        | e :: r' =>
          if (e =? 117)%N then
            match hex4 r' with
            | None => None
            | Some (u, r2) =>
              let lone :=
                option_map (fun p => (u :: fst p, snd p)) (scan_string fuel' r2) in
              if ((55296 <=? u) && (u <=? 56319))%N then
                match r2 with
                | 92%N :: 117%N :: r3 =>
                  match hex4 r3 with
                  | Some (u2, r4) =>
                    if ((56320 <=? u2) && (u2 <=? 57343))%N then
                      option_map
                        (fun p => ((65536 + (u - 55296) * 1024 + (u2 - 56320))%N
                                     :: fst p, snd p))
                        (scan_string fuel' r4)
                    else lone
                  | None => lone
                  end
                | _ => lone
                end
              else lone
            end
          else
            match simple_escape e with
            | Some x =>
              option_map (fun p => (x :: fst p, snd p)) (scan_string fuel' r')
            | None => None
            end
        end
      else option_map (fun p => (c :: fst p, snd p)) (scan_string fuel' r)
    end
  end.

Fixpoint scan_digits (s : str) : list N * str :=
  match s with
  | c :: r =>
    if is_digit c then let (ds, r') := scan_digits r in ((c - 48)%N :: ds, r')
    else ([], s)
  | [] => ([], [])
  end.

Definition digits_value (ds : list N) : Z :=
  fold_left (fun acc d => (acc * 10 + Z.of_N d)%Z) ds 0%Z.

Definition pow10 (n : Z) : Q :=
  if (0 <=? n)%Z then inject_Z (10 ^ n) else Qinv (inject_Z (10 ^ (- n))).

(** A number: optional minus sign, integer part without leading zero,
    optional fraction, optional exponent; an [int] when it has neither
    fraction nor exponent, a [float] otherwise.  The conversion of an
    [int] is refused beyond the limit on its digits. *)
Definition scan_number (L : limits) (s : str) : scan :=
  let (neg, s1) := match s with
                   | 45%N :: r => (true, r)
                   | _ => (false, s)
                   end in
  let (ip, s2) := scan_digits s1 in
  match ip with
  | [] => Invalid
  | d0 :: ip' =>
    let (ip, s2) := if (d0 =? 0)%N then ([d0], skipn 1 s1) else (ip, s2) in
    let (fp, s3) := match s2 with
                    | 46%N :: r =>
                      let (fd, r') := scan_digits r in
                      match fd with [] => ([], s2) | _ => (fd, r') end
                    | _ => ([], s2)
                    end in
    let '(ex, s4) :=
      match s3 with
      | c :: r =>
        if ((c =? 101) || (c =? 69))%N then
          let (sg, r1) := match r with
                          | 45%N :: r' => ((-1)%Z, r')
                          | 43%N :: r' => (1%Z, r')
                          | _ => (1%Z, r)
                          end in
          let (ed, r2) := scan_digits r1 in
          match ed with
          | [] => (None, s3)
          | _ => (Some (sg * digits_value ed)%Z, r2)
          end
        else (None, s3)
      | [] => (None, s3)
      end in
    let sign := if neg then (-1)%Z else 1%Z in
    match fp, ex with
    | [], None =>
      if ((0 <? int_max_str_digits L)
          && (int_max_str_digits L <? List.length ip))%nat
      then Aborted (too_many_digits (int_max_str_digits L) (List.length ip))
      else Scanned (VInt (sign * digits_value ip)) s4
    | _, _ =>
      let mant := digits_value (ip ++ fp) in
      let e := ((match ex with Some x => x | None => 0 end)
                - Z.of_nat (List.length fp))%Z in
      Scanned (VFloat (FFinite (Qmult (inject_Z (sign * mant)) (pow10 e)))) s4
    end
  end.

Definition literal (name : string) (v : value) (s : str) : scan :=
  if startswith (py name) s
  then Scanned v (skipn (String.length name) s) else Invalid.

Definition scan_text (r : str) : scan :=
  of_option
    (option_map (fun p => (VStr (fst p), snd p)) (scan_string (List.length r) r)).

(** A value; [depth] is how many more arrays and objects may be
    entered. *)
Fixpoint scan_value (L : limits) (fuel depth : nat) (s : str) : scan :=
  match fuel with
  | O => Invalid
  | S fuel' =>
    match skip_ws s with
    | [] => Invalid
    | c :: r =>
      if (c =? 34)%N then scan_text r
      else if (c =? 123)%N then
        match depth with
        | O => Aborted (recursion_error "object")
        | S depth' => scan_members L fuel' depth' [] true (skip_ws r)
        end
      else if (c =? 91)%N then
        match depth with
        | O => Aborted (recursion_error "array")
        | S depth' => scan_elements L fuel' depth' [] true (skip_ws r)
        end
      else if (c =? 116)%N then literal "true" (VBool true) (c :: r)
      else if (c =? 102)%N then literal "false" (VBool false) (c :: r)
      else if (c =? 110)%N then literal "null" VNone (c :: r)
      else if (c =? 78)%N then literal "NaN" (VFloat FNan) (c :: r)
      else if (c =? 73)%N then literal "Infinity" (VFloat (FInf false)) (c :: r)
      else if startswith (py "-Infinity") (c :: r)
           then literal "-Infinity" (VFloat (FInf true)) (c :: r)
      else scan_number L (c :: r)
    end
  end

(** Elements of an array after its opening bracket; [first] tells whether a closing
    bracket may come at once. *)
with scan_elements (L : limits) (fuel depth : nat) (acc : list value)
  (first : bool) (s : str) : scan :=
  match fuel with
  | O => Invalid
  | S fuel' =>
    match s with
    | 93%N :: r => if first then Scanned (VList (rev acc)) r else Invalid
    | _ =>
      match scan_value L fuel' depth s with
      | Scanned v r =>
        match skip_ws r with
        | 44%N :: r' => scan_elements L fuel' depth (v :: acc) false (skip_ws r')
        | 93%N :: r' => Scanned (VList (rev (v :: acc))) r'
        | _ => Invalid
        end
      | stopped => stopped
      end
    end
  end

(** Members of an object after its opening brace. *)
with scan_members (L : limits) (fuel depth : nat) (acc : list (str * value))
  (first : bool) (s : str) : scan :=
  match fuel with
  | O => Invalid
  | S fuel' =>
    match s with
    | 125%N :: r => if first then Scanned (VDict acc) r else Invalid
    | 34%N :: r =>
      match scan_string (List.length r) r with
      | None => Invalid
      | Some (k, r1) =>
        match skip_ws r1 with
        | 58%N :: r2 =>
          match scan_value L fuel' depth r2 with
          | Scanned v r3 =>
            match skip_ws r3 with
            | 44%N :: r4 =>
              scan_members L fuel' depth (dict_set k v acc) false (skip_ws r4)
            | 125%N :: r4 => Scanned (VDict (dict_set k v acc)) r4
            | _ => Invalid
            end
          | stopped => stopped
          end
        | _ => Invalid
        end
      end
    | _ => Invalid
    end
  end.

Definition json_decode_error : exn := mk_exn JSONDecodeError (py "Expecting value").

Definition json_loads (L : limits) (s : str) : result value :=
  match scan_value L (2 * List.length s + 2) (max_nesting L) s with
  | Scanned v r =>
    match skip_ws r with
    | [] => Ok v
    | _ => Raise (mk_exn JSONDecodeError (py "Extra data"))
    end
  | Invalid => Raise json_decode_error
  | Aborted e => Raise e
  end.

End Json.
Import Json.

(* ================================================================== *)
(** ** Streamlit: the screen and the session state *)

Module Streamlit.

(** What a run puts on the screen: the four message boxes, and a
    [st.write] inside a [st.chat_message(role)] block. *)
Inductive ui :=
| UError (msg : str)
| UWarning (msg : str)
| UInfo (msg : str)
| USuccess (msg : str)
| UChat (role : str) (body : value).

(** [st.session_state] as [main] initialises it. *)
Record session_state := mk_state {
  session_id : value;
  sessions : value;
  refresh_sessions : bool;
  user_name : str
}.

Record world := mk_world {
  state : session_state;
  screen : list ui
}.

(** Computations that read and write the world and may raise. *)
Definition M (A : Type) := world -> result A * world.

Definition ret {A} (a : A) : M A := fun w => (Ok a, w).

Definition raise {A} (e : exn) : M A := fun w => (Raise e, w).

Definition bind {A B} (m : M A) (k : A -> M B) : M B :=
  fun w =>
    match m w with
    | (Ok a, w') => k a w'
    | (Raise e, w') => (Raise e, w')
    end.

(** [try: m  except <caught> as e: handler e] *)
Definition try_except {A} (m : M A) (caught : exn -> bool) (handler : exn -> M A)
  : M A :=
  fun w =>
    match m w with
    | (Ok a, w') => (Ok a, w')
    | (Raise e, w') => if caught e then handler e w' else (Raise e, w')
    end.

Definition lift {A} (r : result A) : M A := fun w => (r, w).

Definition show (u : ui) : M unit :=
  fun w => (Ok tt, mk_world (state w) (screen w ++ [u])).

Definition st_error (msg : str) : M unit := show (UError msg).
Definition st_warning (msg : str) : M unit := show (UWarning msg).
Definition st_info (msg : str) : M unit := show (UInfo msg).
Definition st_success (msg : str) : M unit := show (USuccess msg).

(** [with st.chat_message(role): st.write(body)] *)
Definition chat_write (role : str) (body : value) : M unit :=
  show (UChat role body).

Definition get_state : M session_state := fun w => (Ok (state w), w).

Definition put_state (s : session_state) : M unit :=
  fun w => (Ok tt, mk_world s (screen w)).

(** [st.rerun()] leaves the script at once. *)
Definition st_rerun {A} : M A := raise (mk_exn RerunException []).

End Streamlit.
Import Streamlit.

Declare Scope py_scope.
Delimit Scope py_scope with py.
Notation "x <- m ;; k" := (bind m (fun x => k))
  (at level 61, m at next level, right associativity) : py_scope.
Notation "m ;; k" := (bind m (fun _ => k))
  (at level 61, right associativity) : py_scope.
Open Scope py_scope.

(* ================================================================== *)
(** ** The [requests] library, as the adapters use it *)

Module Requests.

Inductive http_method := GET | POST | DELETE.

Record request := mk_request {
  req_method : http_method;
  req_url : str;
  req_headers : list (str * str);
  req_json : option value;
  req_stream : bool
}.

(** A response.  [text] is the library's decoding of [content];
    [iter_lines] are the lines a streamed body delivers and [iter_error]
    the exception, if any, that interrupts the stream after them. *)
Record response := mk_response {
  status_code : Z;
  reason : str;
  url : str;
  headers : list (str * str);
  content : bytes;
  text : str;
  iter_lines : list bytes;
  iter_error : option exn
}.

(** A call either raises or returns a response. *)
Inductive http_outcome :=
| Raised (e : exn)
| Responded (r : response).

(** [Response.raise_for_status]: [HTTPError] for 4xx and 5xx. *)
Definition raise_for_status (r : response) : result unit :=
  let s := status_code r in
  if ((400 <=? s) && (s <? 500))%Z then
    Raise (mk_exn HTTPError
             (str_of_Z s ++ py " Client Error: " ++ reason r
                ++ py " for url: " ++ url r))
  else if ((500 <=? s) && (s <? 600))%Z then
    Raise (mk_exn HTTPError
             (str_of_Z s ++ py " Server Error: " ++ reason r
                ++ py " for url: " ++ url r))
  else Ok tt.

(** [Response.ok]: whether [raise_for_status] passes. *)
Definition ok (r : response) : bool :=
  match raise_for_status r with Ok _ => true | Raise _ => false end.

Definition lower (c : N) : N :=
  if ((65 <=? c) && (c <=? 90))%N then (c + 32)%N else c.

(** [response.headers.get(name, default)]; header names compare without
    regard to case. *)
Fixpoint header_get (name default : str) (h : list (str * str)) : str :=
  match h with
  | [] => default
  | (k, v) :: h' =>
    if str_eqb (map lower k) (map lower name) then v
    else header_get name default h'
  end.

(** A response whose body is the given ASCII text. *)
Definition ascii_response (status : Z) (hdrs : list (str * str)) (body : string)
  : response :=
  mk_response status [] [] hdrs (b body) (py body) [] None.

(** The same, with apostrophes standing for double quotes. *)
Definition json_response (status : Z) (body : string) : response :=
  mk_response status [] []
    [(py "content-type", py "application/json")] (bq body) (pyq body) [] None.

(** A streamed response delivering the given lines. *)
Definition stream_response (status : Z) (lines : list bytes) (err : option exn)
  : response :=
  mk_response status [] [] [] [] [] lines err.

(** [bytes.splitlines()] on a body received in one piece: lines end at
    LF, CR or CR LF, and no empty line follows a final terminator. *)
Fixpoint splitlines_from (cur : bytes) (l : bytes) : list bytes :=
  match l with
  | [] => match cur with [] => [] | _ => [rev cur] end
  | c :: r =>
    if Byte.eqb c x0a then rev cur :: splitlines_from [] r
    else if Byte.eqb c x0d then
      match r with
      | c' :: r' =>
        if Byte.eqb c' x0a then rev cur :: splitlines_from [] r'
        else rev cur :: splitlines_from [] r
      | [] => [rev cur]
      end
    else splitlines_from (c :: cur) r
  end.

Definition splitlines (body : bytes) : list bytes := splitlines_from [] body.

End Requests.
Import Requests.

(* ================================================================== *)
(** ** [datetime], as [_format_timestamp] uses it *)

Module Datetime.

Record datetime := mk_datetime {
  year : Z; month : Z; day : Z; hour : Z; minute : Z; second : Z
}.

Definition Qfloor (q : Q) : Z := (Qnum q / Z.pos (Qden q))%Z.

(** Rounding to the nearest integer, ties to even. *)
Definition round_half_even (q : Q) : Z :=
  let f := Qfloor q in
  let twice := Qfloor (Qmult q 2) in
  if (twice =? 2 * f)%Z then
    f
  else if Qeq_bool (Qmult q 2) (inject_Z twice) then
    (if Z.even f then f else f + 1)%Z
  else
    (if Qle_bool (inject_Z (2 * f + 1)) (Qmult q 2) then f + 1 else f)%Z.

(** Day number since 1970-01-01 to proleptic Gregorian year, month, day. *)
Definition civil_from_days (days : Z) : Z * Z * Z :=
  let z := (days + 719468)%Z in
  let era := (z / 146097)%Z in
  let doe := (z - era * 146097)%Z in
  let yoe := ((doe - doe / 1460 + doe / 36524 - doe / 146096) / 365)%Z in
  let doy := (doe - (365 * yoe + yoe / 4 - yoe / 100))%Z in
  let mp := ((5 * doy + 2) / 153)%Z in
  let d := (doy - (153 * mp + 2) / 5 + 1)%Z in
  let m := (if mp <? 10 then mp + 3 else mp - 9)%Z in
  let y := (yoe + era * 400 + (if m <=? 2 then 1 else 0))%Z in
  (y, m, d).

(** [datetime.fromtimestamp(t)] in a local zone at a fixed offset from
    UTC: the time is rounded to microseconds, and a year outside
    1..9999 raises ([None]). *)
Definition fromtimestamp (utcoffset : Z) (t : Q) : option datetime :=
  let us := round_half_even (Qmult t (inject_Z 1000000)) in
  let local := (us / 1000000 + utcoffset)%Z in
  let '(y, m, d) := civil_from_days (local / 86400) in
  let sod := (local mod 86400)%Z in
  if ((1 <=? y) && (y <=? 9999))%Z
  then Some (mk_datetime y m d (sod / 3600) (sod mod 3600 / 60) (sod mod 60))
  else None.

Definition two_digits (n : Z) : str :=
  (if n <? 10 then py "0" else [])%Z ++ str_of_Z n.

(** [dt.strftime('%d/%m %H:%M')] *)
Definition strftime_dm_HM (dt : datetime) : str :=
  two_digits (day dt) ++ py "/" ++ two_digits (month dt) ++ py " "
    ++ two_digits (hour dt) ++ py ":" ++ two_digits (minute dt).

End Datetime.
Import Datetime.

(* ================================================================== *)
(** ** Operators of the language on decoded values *)

Module PyOps.

Definition type_error (msg : string) : exn := mk_exn TypeError (py msg).

(** [type(v).__name__] *)
Definition type_name (v : value) : str :=
  match v with
  | VNone => py "NoneType"
  | VBool _ => py "bool"
  | VInt _ => py "int"
  | VFloat _ => py "float"
  | VStr _ => py "str"
  | VList _ => py "list"
  | VDict _ => py "dict"
  end.

(** The [TypeError] of [for x in v] on an object that cannot be
    iterated over; its text is what [f"{e}"] shows. *)
Definition not_iterable (v : value) : exn :=
  mk_exn TypeError (py "'" ++ type_name v ++ py "' object is not iterable").

(** [v == k] for a string [k]. *)
Definition is_str (k : str) (v : value) : bool :=
  match v with VStr s => str_eqb s k | _ => false end.

(** The elements [for x in v] visits. *)
Definition iterate (v : value) : result (list value) :=
  match v with
  | VList l => Ok l
  | VDict d => Ok (map (fun kv => VStr (fst kv)) d)
  | VStr s => Ok (map (fun c => VStr [c]) s)
  | _ => Raise (not_iterable v)
  end.

(** [k in v] for a string [k]. *)
Definition py_in (k : str) (v : value) : result bool :=
  match v with
  | VDict d => Ok (has_key k d)
  | VList l => Ok (existsb (is_str k) l)
  | VStr s => Ok (contains k s)
  | _ => Raise (type_error "argument is not iterable")
  end.

(** [v[k]] for a string [k]. *)
Definition getitem (v : value) (k : str) : result value :=
  match v with
  | VDict d =>
    match dict_get k d with
    | Some x => Ok x
    | None => Raise (mk_exn KeyError k)
    end
  | VList _ | VStr _ => Raise (type_error "indices must be integers")
  | _ => Raise (type_error "object is not subscriptable")
  end.

(** The number an [int] or [float] object stands for; [bool] is a
    subclass of [int]. *)
Definition number_of (ts : value) : option pyfloat :=
  match ts with
  | VInt z => Some (FFinite (inject_Z z))
  | VBool x => Some (FFinite (if x then 1%Q else 0%Q))
  | VFloat f => Some f
  | _ => None
  end.

Fixpoint for_each {A} (body : A -> M unit) (l : list A) : M unit :=
  match l with
  | [] => ret tt
  | x :: l' => body x ;; for_each body l'
  end.

(** A generator: what it does between two resumptions is to yield a
    value or to put something on the screen; then it returns or raises. *)
Inductive gen_step :=
| GYield (v : value)
| GShow (u : ui).

Definition generator := (list gen_step * result unit)%type.

Definition yields (g : generator) : list value :=
  flat_map (fun s => match s with GYield v => [v] | GShow _ => [] end) (fst g).

Definition shown (g : generator) : list ui :=
  flat_map (fun s => match s with GShow u => [u] | GYield _ => [] end) (fst g).

(** [for x in g: acc = body x acc], the generator being resumed after
    each turn of the body. *)
Fixpoint for_steps {S} (body : value -> S -> M S) (steps : list gen_step) (acc : S)
  : M S :=
  match steps with
  | [] => ret acc
  | GShow u :: r => show u ;; for_steps body r acc
  | GYield v :: r => acc' <- body v acc ;; for_steps body r acc'
  end.

Definition for_gen {S} (body : value -> S -> M S) (g : generator) (acc : S) : M S :=
  acc' <- for_steps body (fst g) acc ;;
  lift (snd g) ;;
  ret acc'.

End PyOps.
Import PyOps.

(* ================================================================== *)
(** ** What the two programs share *)

Module Common.

Definition threshold : Q := inject_Z (10 ^ 12).

(** [a > b] on numbers. *)
Definition Qgt_bool (a b : Q) : bool := negb (Qle_bool a b).

(** [ts / 1000.0] *)
Definition ms_to_s (q : Q) : Q := Qdiv q (inject_Z 1000).

Section FormatTimestamp.

Variable sentinel : str.
Variable utcoffset : Z.
Variable fromisoformat : str -> option datetime.

(** The numeric branch: [if ts > 1e12: ts = ts / 1000.0], then
    [datetime.fromtimestamp(ts).strftime('%d/%m %H:%M')]; an infinity
    or NaN makes [fromtimestamp] raise. *)
Definition format_epoch (n : pyfloat) : str :=
  match n with
  | FFinite q =>
    let q' := if Qgt_bool q threshold then ms_to_s q else q in
    match fromtimestamp utcoffset q' with
    | Some dt => strftime_dm_HM dt
    | None => sentinel
    end
  | _ => sentinel
  end.

(** [_format_timestamp(ts)]: every exception is swallowed and gives
    the sentinel, as does an object that is neither number nor string. *)
Definition format_timestamp (ts : value) : str :=
  match number_of ts with
  | Some n => format_epoch n
  | None =>
    match ts with
    | VStr s =>
      match fromisoformat (replace1 90 (py "+00:00") s) with
      | Some dt => strftime_dm_HM dt
      | None => sentinel
      end
    | _ => sentinel
    end
  end.

End FormatTimestamp.

Section History.

(** How the text of a part joins [text_content]: [+= part['text']] in
    one program, [+= str(part['text'])] in the other. *)
Variable text_of : value -> result str.
Variable no_history : str.

(** The inner loop [for part in parts]. *)
Fixpoint join_parts (parts : list value) (text_content : str) : result str :=
  match parts with
  | [] => Ok text_content
  | VDict pd :: rest =>
    match dict_get (py "text") pd with
    | Some t =>
      if is_none t then join_parts rest text_content
      else
        match text_of t with
        | Ok s => join_parts rest (text_content ++ s)
        | Raise e => Raise e
        end
    | None => join_parts rest text_content
    end
  | _ :: rest => join_parts rest text_content
  end.

(** One turn of [for event in events]. *)
Definition show_event (event : value) : M unit :=
  match event with
  | VDict ed =>
    let content := get (py "content") (VDict []) ed in
    let author := get (py "author") (VStr (py "unknown")) ed in
    match content with
    | VDict cd =>
      let parts := get (py "parts") (VList []) cd in
      let role := get (py "role") author cd in
      ps <- lift (iterate parts) ;;
      text_content <- lift (join_parts ps []) ;;
      if nonempty (strip text_content) then
        if is_str (py "user") role || is_str (py "user") author
        then chat_write (py "user") (VStr text_content)
        else chat_write (py "assistant") (VStr text_content)
      else ret tt
    | _ => ret tt
    end
  | _ => ret tt
  end.

Definition display_history (session_details : list (str * value)) : M unit :=
  let events := get (py "events") (VList []) session_details in
  if negb (truthy events) then st_info no_history
  else
    evs <- lift (iterate events) ;;
    for_each show_event evs.

End History.

End Common.
Import Common.

(* ================================================================== *)
(** ** [app_local.py]: the adapter over a local REST service *)

Module AppLocal.

(** What the program takes from its surroundings: configuration, the
    HTTP transport behind [requests], the JSON decoder, the local time
    zone, [datetime.fromisoformat], and [str()] of an object that is
    not a string. *)
Record env := mk_env {
  BASE_URL : str;
  APP_NAME : str;
  send : request -> http_outcome;
  loads : str -> result value;
  utcoffset : Z;
  fromisoformat : str -> option datetime;
  str_of : value -> str
}.

Definition HEADERS : list (str * str) :=
  [(py "accept", py "application/json");
   (py "Content-Type", py "application/json")].

Section Adapter.

Variable E : env.

(** [f"{x}"] *)
Definition fstr (v : value) : str :=
  match v with VStr s => s | _ => str_of E v end.

(** [requests.get/post/delete(...)] *)
Definition call (rq : request) : M response :=
  match send E rq with
  | Raised e => raise e
  | Responded r => ret r
  end.

Definition _format_timestamp : value -> str :=
  format_timestamp (py "Unknown") (utcoffset E) (fromisoformat E).

(** [response.json()]: the decoder on the text of the response.  The
    library raises a [JSONDecodeError] of the decoder again as its own;
    every other exception of the decoder passes through. *)
Definition json (r : response) : M value :=
  match loads E (text r) with
  | Ok v => ret v
  | Raise e =>
    if is_JSONDecodeError e
    then raise (mk_exn RequestsJSONDecodeError (exn_text e))
    else raise e
  end.

Definition non_json_message (r : response) : str :=
  let ct := header_get (py "content-type") (py "unknown") (headers r) in
  let body_snippet :=
    if nonempty (text r) then firstn 500 (text r) else py "<no body>" in
  [9888; 65039]%N ++ py " Risposta non-JSON dall'API." ++ [10; 10]%N
    ++ py "- Status: " ++ str_of_Z (status_code r) ++ [10]%N
    ++ py "- Content-Type: " ++ ct ++ [10]%N
    ++ py "- Body (snippet):" ++ [10]%N ++ py "```" ++ [10]%N
    ++ body_snippet ++ [10]%N ++ py "```".

Definition _parse_json_or_empty (r : response) (on_empty : value) : M value :=
  let on_empty := if is_none on_empty then VList [] else on_empty in
  try_except
    (if (status_code r =? 204)%Z
        || match content r with [] => true | _ => false end
        || str_eqb (strip (text r)) []
     then ret on_empty
     else json r)
    is_ValueError
    (fun _ => st_error (non_json_message r) ;; ret on_empty).

(** [GET /list-apps] *)
Definition list_apps : M value :=
  let endpoint := BASE_URL E ++ py "/list-apps" in
  try_except
    (resp <- call (mk_request GET endpoint HEADERS None false) ;;
     lift (raise_for_status resp) ;;
     _parse_json_or_empty resp (VList []))
    is_RequestException
    (fun e => st_error (py "Error listing apps: " ++ exn_text e) ;; ret VNone).

Definition sessions_url (app_name user_id : str) : str :=
  BASE_URL E ++ py "/apps/" ++ app_name ++ py "/users/" ++ user_id
    ++ py "/sessions".

(** [GET /apps/{app_name}/users/{user_id}/sessions] *)
Definition list_sessions (app_name user_id : str) : M value :=
  let endpoint := sessions_url app_name user_id in
  try_except
    (resp <- call (mk_request GET endpoint HEADERS None false) ;;
     lift (raise_for_status resp) ;;
     data <- _parse_json_or_empty resp (VList []) ;;
     match data with
     | VDict d =>
       match dict_get (py "sessions") d with
       | Some ss => ret (if truthy ss then ss else VList [])
       | None => ret (VList [])
       end
     | VList _ => ret data
     | _ => ret (VList [])
     end)
    is_RequestException
    (fun e =>
       st_error (py "Error listing sessions for user " ++ user_id
                   ++ py " in app " ++ app_name ++ py ": " ++ exn_text e) ;;
       ret (VList [])).

(** [GET /apps/{app_name}/users/{user_id}/sessions/{session_id}] *)
Definition get_session (app_name user_id : str) (session_id : value) : M value :=
  let endpoint := sessions_url app_name user_id ++ py "/" ++ fstr session_id in
  try_except
    (resp <- call (mk_request GET endpoint HEADERS None false) ;;
     lift (raise_for_status resp) ;;
     data <- _parse_json_or_empty resp VNone ;;
     match data with
     | VDict _ => ret data
     | _ => ret VNone
     end)
    is_RequestException
    (fun e =>
       st_error (py "Error getting session " ++ fstr session_id ++ py ": "
                   ++ exn_text e) ;;
       ret VNone).

(** [DELETE /apps/{app_name}/users/{user_id}/sessions/{session_id}] *)
Definition delete_session (app_name user_id : str) (session_id : value) : M bool :=
  let endpoint := sessions_url app_name user_id ++ py "/" ++ fstr session_id in
  try_except
    (resp <- call (mk_request DELETE endpoint HEADERS None false) ;;
     if existsb (Z.eqb (status_code resp)) [200; 202; 204]%Z then ret true
     else
       _parse_json_or_empty resp VNone ;;
       ret (ok resp))
    is_RequestException
    (fun e =>
       st_error (py "Error deleting session " ++ fstr session_id ++ py ": "
                   ++ exn_text e) ;;
       ret false).

Definition no_id_warning : str :=
  py "La risposta alla creazione sessione non contiene un campo 'id'.".

(** [isinstance(data, dict) and "session" in data and
    isinstance(data["session"], dict)], with the inner dictionary. *)
Definition session_of (data : value) : option (list (str * value)) :=
  match data with
  | VDict d =>
    match dict_get (py "session") d with
    | Some (VDict sd) => Some sd
    | _ => None
    end
  | _ => None
  end.

(** [POST /apps/{app_name}/users/{user_id}/sessions]; the tests on
    [data] are tried in the order of the source, each one returning. *)
Definition create_session (app_name user_id : str) (session_data : option value)
  : M value :=
  let endpoint := sessions_url app_name user_id in
  try_except
    (let payload := match session_data with Some d => d | None => VDict [] end in
     resp <- call (mk_request POST endpoint HEADERS (Some payload) false) ;;
     lift (raise_for_status resp) ;;
     data <- _parse_json_or_empty resp VNone ;;
     match data with
     | VDict d => ret (get (py "id") VNone d)
     | _ =>
       match session_of data with
       | Some sd => ret (get (py "id") VNone sd)
       | None =>
         match data with
         | VList (VDict maybe :: _) =>
           match dict_get (py "id") maybe with
           | Some i => ret i
           | None => st_warning no_id_warning ;; ret VNone
           end
         | _ => st_warning no_id_warning ;; ret VNone
         end
       end
     end)
    is_RequestException
    (fun e =>
       st_error (py "Error creating session for user " ++ user_id
                   ++ py " in app " ++ app_name ++ py ": " ++ exn_text e) ;;
       ret VNone).

(** The loop [for line in response.iter_lines()] of [agent_run_sse].
    Only a [JSONDecodeError] of the decoder is caught at the payload;
    any other exception ends the loop, like a line that is not UTF-8. *)
Fixpoint sse_lines (lines : list bytes) (tail : option exn) : generator :=
  match lines with
  | [] =>
    ([], match tail with Some e => Raise e | None => Ok tt end)
  | line :: rest =>
    match line with
    | [] => sse_lines rest tail
    | _ =>
      match decode_utf8 line with
      | None =>
        ([], Raise (mk_exn UnicodeDecodeError
                      (py "'utf-8' codec can't decode byte")))
      | Some decoded_line =>
        if startswith (py "data: ") decoded_line then
          let (steps, fin) := sse_lines rest tail in
          match loads E (skipn 6 decoded_line) with
          | Ok v => (GYield v :: steps, fin)
          | Raise e =>
            if is_JSONDecodeError e then
              (GShow (UWarning (py "Could not decode JSON from stream: "
                                  ++ decoded_line)) :: steps, fin)
            else ([], Raise e)
          end
        else sse_lines rest tail
      end
    end
  end.

Definition sse_error (e : exn) : gen_step :=
  GShow (UError (py "Error during agent run SSE: " ++ exn_text e)).

(** [POST /run_sse], a generator. *)
Definition agent_run_sse (app_name user_id : str) (session_id : value) (query : str)
  : generator :=
  let endpoint := BASE_URL E ++ py "/run_sse" in
  let request_data :=
    VDict [(py "app_name", VStr app_name);
           (py "user_id", VStr user_id);
           (py "session_id", session_id);
           (py "new_message",
            VDict [(py "role", VStr (py "user"));
                   (py "parts", VList [VDict [(py "text", VStr query)]])]);
           (py "stream", VBool true)] in
  match send E (mk_request POST endpoint HEADERS (Some request_data) true) with
  | Raised e =>
    if is_RequestException e then ([sse_error e], Ok tt) else ([], Raise e)
  | Responded response =>
    match raise_for_status response with
    | Raise e => ([sse_error e], Ok tt)
    | Ok _ =>
      let (steps, fin) := sse_lines (iter_lines response) (iter_error response) in
      match fin with
      | Ok _ => (steps, Ok tt)
      | Raise e =>
        if is_RequestException e then (steps ++ [sse_error e], Ok tt)
        else (steps, Raise e)
      end
    end
  end.

(** [text_content += part['text']]: only a string can be appended. *)
Definition text_of (t : value) : result str :=
  match t with
  | VStr s => Ok s
  | _ => Raise (type_error "can only concatenate str to str")
  end.

Definition display_conversation_history : list (str * value) -> M unit :=
  display_history text_of
    (py "No conversation history yet. Start by sending a message!").

(** *** The handlers of [main] *)

(** The button that creates a session. *)
Definition main_create_button (user_id : str) : M unit :=
  new_session_id <- create_session (APP_NAME E) user_id None ;;
  if truthy new_session_id then
    st_success (py "Created new session: " ++ fstr new_session_id) ;;
    s <- get_state ;;
    put_state (mk_state new_session_id (sessions s) true (user_name s)) ;;
    st_rerun
  else ret tt.

(** The button that selects the listed session [session_id]. *)
Definition main_select_button (session_id : str) : M unit :=
  s <- get_state ;;
  put_state (mk_state (VStr session_id) (sessions s) (refresh_sessions s)
               (user_name s)) ;;
  st_rerun.

(** The button that deletes the listed session [session_id]. *)
Definition main_delete_button (user_id session_id : str) : M unit :=
  deleted <- delete_session (APP_NAME E) user_id (VStr session_id) ;;
  if deleted then
    st_success (py "Session deleted!") ;;
    s <- get_state ;;
    (if is_str session_id (Streamlit.session_id s)
     then put_state (mk_state VNone (sessions s) (refresh_sessions s) (user_name s))
     else ret tt) ;;
    s <- get_state ;;
    put_state (mk_state (Streamlit.session_id s) (sessions s) true (user_name s)) ;;
    st_rerun
  else ret tt.

(** The body of [for part in event['content']['parts']]. *)
Fixpoint collect_parts (parts : list value) (responses : list value)
  : M (list value) :=
  match parts with
  | [] => ret responses
  | part :: rest =>
    has_text <- lift (py_in (py "text") part) ;;
    if has_text then
      t <- lift (getitem part (py "text")) ;;
      collect_parts rest (responses ++ [t])
    else collect_parts rest responses
  end.

(** The body of [for event in agent_run_sse(...)]. *)
Definition collect_event (event : value) (responses : list value)
  : M (list value) :=
  if truthy event then
    has_content <- lift (py_in (py "content") event) ;;
    if has_content then
      content <- lift (getitem event (py "content")) ;;
      has_parts <- lift (py_in (py "parts") content) ;;
      if has_parts then
        parts <- lift (getitem content (py "parts")) ;;
        ps <- lift (iterate parts) ;;
        collect_parts ps responses
      else ret responses
    else ret responses
  else ret responses.

(** What [main] does with a message typed into the chat input. *)
Definition main_chat_input (user_id user_message : str) : M unit :=
  chat_write (py "user") (VStr user_message) ;;
  s <- get_state ;;
  responses <- for_gen collect_event
                 (agent_run_sse (APP_NAME E) user_id (session_id s) user_message)
                 [] ;;
  match responses with
  | [] => st_error (py "No response received from the agent.")
  | _ => for_each (chat_write (py "assistant")) responses
  end ;;
  st_rerun.

End Adapter.

End AppLocal.

(* ================================================================== *)
(** ** [app_agentEngine.py]: the adapter over Vertex AI Agent Engine *)

Module AppAgentEngine.

(** The object [agent_engines.get] returns: each method returns or
    raises; [stream_query] yields events and may then raise. *)
Record remote_app := mk_remote_app {
  create_session : str -> result value;
  list_sessions : str -> result value;
  get_session : str -> value -> result value;
  delete_session : str -> value -> result value;
  stream_query : str -> value -> str -> list value * option exn
}.

Record env := mk_env {
  RESOURCE_ID : str;
  agent_engines_get : str -> result remote_app;
  utcoffset : Z;
  fromisoformat : str -> option datetime;
  str_of : value -> str
}.

Section Adapter.

Variable E : env.

(** [str(x)] *)
Definition to_str (v : value) : str :=
  match v with VStr s => s | _ => str_of E v end.

Definition _format_timestamp : value -> str :=
  format_timestamp (py "Sconosciuto") (utcoffset E) (fromisoformat E).

Definition create_new_session (resource_id user_id : str) : M value :=
  try_except
    (remote_app <- lift (agent_engines_get E resource_id) ;;
     remote_session <- lift (create_session remote_app user_id) ;;
     match remote_session with
     | VStr _ => ret remote_session
     | VDict d => ret (get (py "id") VNone d)
     | _ => ret VNone
     end)
    is_Exception
    (fun e =>
       st_error (py "Errore nella creazione della sessione: " ++ exn_text e) ;;
       ret VNone).

Definition get_sessions_list (resource_id user_id : str) : M value :=
  try_except
    (remote_app <- lift (agent_engines_get E resource_id) ;;
     sessions <- lift (list_sessions remote_app user_id) ;;
     match sessions with
     | VDict d =>
       match dict_get (py "sessions") d with
       | Some ss => ret ss
       | None => ret (VList [])
       end
     | VList _ => ret sessions
     | _ => ret (VList [])
     end)
    is_Exception
    (fun e =>
       st_error (py "Errore nel recupero delle sessioni: " ++ exn_text e) ;;
       ret (VList [])).

Definition get_session_details (resource_id user_id : str) (session_id : value)
  : M value :=
  try_except
    (remote_app <- lift (agent_engines_get E resource_id) ;;
     session <- lift (get_session remote_app user_id session_id) ;;
     match session with
     | VDict _ => ret session
     | _ => ret VNone
     end)
    is_Exception
    (fun e =>
       st_error (py "Errore nel recupero dei dettagli della sessione: "
                   ++ exn_text e) ;;
       ret VNone).

Definition delete_session_by_id (resource_id user_id : str) (session_id : value)
  : M bool :=
  try_except
    (remote_app <- lift (agent_engines_get E resource_id) ;;
     lift (delete_session remote_app user_id session_id) ;;
     ret true)
    is_Exception
    (fun e =>
       st_error (py "Errore nell'eliminazione della sessione: " ++ exn_text e) ;;
       ret false).

(** The loop [for part in parts] of [send_message_to_agent]. *)
Fixpoint append_texts (parts : list value) (responses : list str) : list str :=
  match parts with
  | [] => responses
  | VDict pd :: rest =>
    match dict_get (py "text") pd with
    | Some text =>
      if truthy text && nonempty (strip (to_str text))
      then append_texts rest (responses ++ [to_str text])
      else append_texts rest responses
    | None => append_texts rest responses
    end
  | _ :: rest => append_texts rest responses
  end.

(** The body of [for event in remote_app.stream_query(...)]. *)
Definition collect_event (event : value) (responses : list str) : M (list str) :=
  match event with
  | VDict ed =>
    match get (py "content") (VDict []) ed with
    | VDict cd =>
      ps <- lift (iterate (get (py "parts") (VList []) cd)) ;;
      ret (append_texts ps responses)
    | _ => ret responses
    end
  | _ => ret responses
  end.

Definition query_generator (q : list value * option exn) : generator :=
  (map GYield (fst q),
   match snd q with Some e => Raise e | None => Ok tt end).

Definition send_message_to_agent (resource_id user_id : str) (session_id : value)
  (message : str) : M (list str) :=
  try_except
    (remote_app <- lift (agent_engines_get E resource_id) ;;
     for_gen collect_event
       (query_generator (stream_query remote_app user_id session_id message)) [])
    is_Exception
    (fun e =>
       st_error (py "Errore durante l'invio del messaggio: " ++ exn_text e) ;;
       ret []).

(** [text_content += str(part['text'])] *)
Definition text_of (t : value) : result str := Ok (to_str t).

Definition display_conversation_history : list (str * value) -> M unit :=
  display_history text_of
    (py "Nessuna conversazione al momento. Invia un messaggio per iniziare!").

(** *** The handlers of [main] *)

Definition main_create_button (user_id : str) : M unit :=
  new_session_id <- create_new_session (RESOURCE_ID E) user_id ;;
  if truthy new_session_id then
    st_success (py "Nuova sessione creata: " ++ to_str new_session_id) ;;
    s <- get_state ;;
    put_state (mk_state new_session_id (sessions s) true (user_name s)) ;;
    st_rerun
  else ret tt.

Definition main_select_button (session_id : str) : M unit :=
  s <- get_state ;;
  put_state (mk_state (VStr session_id) (sessions s) (refresh_sessions s)
               (user_name s)) ;;
  st_rerun.

Definition main_delete_button (user_id session_id : str) : M unit :=
  deleted <- delete_session_by_id (RESOURCE_ID E) user_id (VStr session_id) ;;
  if deleted then
    st_success (py "Sessione eliminata!") ;;
    s <- get_state ;;
    (if is_str session_id (Streamlit.session_id s)
     then put_state (mk_state VNone (sessions s) (refresh_sessions s) (user_name s))
     else ret tt) ;;
    s <- get_state ;;
    put_state (mk_state (Streamlit.session_id s) (sessions s) true (user_name s)) ;;
    st_rerun
  else ret tt.

Definition main_chat_input (user_id user_message : str) : M unit :=
  chat_write (py "user") (VStr user_message) ;;
  s <- get_state ;;
  responses <- send_message_to_agent (RESOURCE_ID E) user_id (session_id s)
                 user_message ;;
  match responses with
  | [] => st_error (py "Nessuna risposta ricevuta dall'agente.")
  | _ => for_each (fun r => chat_write (py "assistant") (VStr r)) responses
  end ;;
  st_rerun.

End Adapter.

End AppAgentEngine.

(* ================================================================== *)
(** ** Worked inputs *)

Module Examples.

(** [str()] of [None], of a truth value and of an integer.  The worked
    inputs reach [str()] of no other object that is not a string. *)
Definition py_str (v : value) : str :=
  match v with
  | VNone => py "None"
  | VBool true => py "True"
  | VBool false => py "False"
  | VInt z => str_of_Z z
  | VStr s => s
  | _ => py "<object>"
  end.

(** The local program with its default configuration, the decoder
    [json_loads] under the interpreter's default limits and UTC as the
    local zone, in front of a given backend.  The worked inputs do not
    reach the ISO parser. *)
Definition local_env (backend : request -> http_outcome) : AppLocal.env :=
  AppLocal.mk_env (py "http://127.0.0.1:8000") (py "greeting_agent")
    backend (json_loads default_limits) 0 (fun _ => None) py_str.

(** A backend that gives the same answer to every request. *)
Definition answers (r : response) : request -> http_outcome :=
  fun _ => Responded r.

(** The state [main] starts from. *)
Definition fresh : world :=
  mk_world (mk_state VNone (VList []) true (py "test_user")) [].

Definition nested_id_body : string := "{'session': {'id': 's1'}}".

End Examples.
Import Examples.

(* ================================================================== *)
(** ** Notions the statements use *)

(** The world after [out] has been put on the screen. *)
Definition with_shown (w : world) (out : list ui) : world :=
  mk_world (state w) (screen w ++ out).

(** The test of [_parse_json_or_empty] for a body with nothing in it. *)
Definition empty_body (r : response) : bool :=
  (status_code r =? 204)%Z
  || match content r with [] => true | _ => false end
  || str_eqb (strip (text r)) [].

(** The default the decoder falls back on: the caller's, an empty list
    standing in for [None]. *)
Definition fallback (on_empty : value) : value :=
  if is_none on_empty then VList [] else on_empty.

(** The request [delete_session] sends. *)
Definition delete_request (E : AppLocal.env) (app_name user_id : str)
  (session_id : value) : request :=
  mk_request DELETE
    (AppLocal.sessions_url E app_name user_id ++ py "/" ++ AppLocal.fstr E session_id)
    AppLocal.HEADERS None false.

(** A status that [raise_for_status] refuses. *)
Definition error_status (s : Z) : bool := ((400 <=? s) && (s <? 600))%Z.

(** An Agent Engine whose [agent_engines.get] behaves as given, seen
    from UTC. *)
Definition engine_env (get : str -> result AppAgentEngine.remote_app)
  : AppAgentEngine.env :=
  AppAgentEngine.mk_env (py "projects/p/locations/l/reasoningEngines/1") get 0
    (fun _ => None) py_str.

(** An engine that cannot be reached. *)
Definition unreachable_engine : AppAgentEngine.env :=
  engine_env (fun _ => Raise (mk_exn ConnectionError (py "unreachable"))).

(** The specification's wording of the decoder's condition: status
    204, or an empty or whitespace-only body. *)
Definition nothing_to_decode (r : response) : Prop :=
  status_code r = 204%Z \/ content r = [] \/ forallb isspace (text r) = true.

(** What the stream reader does with one decoded line it gets over: a
    payload line yields its decoded value or, when it does not decode,
    shows a warning; any other line does nothing. *)
Definition sse_line_steps (E : AppLocal.env) (decoded_line : str) : list gen_step :=
  if startswith (py "data: ") decoded_line then
    match AppLocal.loads E (skipn 6 decoded_line) with
    | Ok v => [GYield v]
    | Raise _ =>
      [GShow (UWarning (py "Could not decode JSON from stream: " ++ decoded_line))]
    end
  else [].

(** Whether the reader gets over a decoded line: the JSON decoder, when
    it raises on a payload, has to raise [JSONDecodeError]. *)
Definition payload_handled (E : AppLocal.env) (decoded_line : str) : bool :=
  if startswith (py "data: ") decoded_line then
    match AppLocal.loads E (skipn 6 decoded_line) with
    | Ok _ => true
    | Raise e => is_JSONDecodeError e
    end
  else true.

(** The exception a line of the stream stops the reader with, if it
    does: the line is not UTF-8, or it is a payload on which the JSON
    decoder raises something else than [JSONDecodeError]. *)
Definition line_failure (E : AppLocal.env) (line : bytes) : option exn :=
  match line with
  | [] => None
  | _ =>
    match decode_utf8 line with
    | None =>
      Some (mk_exn UnicodeDecodeError (py "'utf-8' codec can't decode byte"))
    | Some decoded_line =>
      if startswith (py "data: ") decoded_line then
        match AppLocal.loads E (skipn 6 decoded_line) with
        | Ok _ => None
        | Raise e => if is_JSONDecodeError e then None else Some e
        end
      else None
    end
  end.

(** The request [agent_run_sse] sends. *)
Definition run_sse_request (E : AppLocal.env) (app_name user_id : str)
  (session_id : value) (query : str) : request :=
  mk_request POST (AppLocal.BASE_URL E ++ py "/run_sse") AppLocal.HEADERS
    (Some (VDict [(py "app_name", VStr app_name);
                  (py "user_id", VStr user_id);
                  (py "session_id", session_id);
                  (py "new_message",
                   VDict [(py "role", VStr (py "user"));
                          (py "parts", VList [VDict [(py "text", VStr query)]])]);
                  (py "stream", VBool true)]))
    true.

(** An event whose only part is the given text. *)
Definition text_event (t : string) : value :=
  VDict [(py "content", VDict [(py "parts", VList [VDict [(py "text", VStr (py t))]])])].

(** The stream of the specification's example, as [iter_lines] cuts it. *)
Definition example_stream : list bytes :=
  [bq "data: {'content':{'parts':[{'text':'A'}]}}"; [];
   bq "data: not-json"; [];
   bq "data: {'content':{'parts':[{'text':'B'}]}}"].

(** The same stream with one line that is not UTF-8 in the place of the
    line that is not JSON. *)
Definition stream_with_bad_bytes : list bytes :=
  [bq "data: {'content':{'parts':[{'text':'A'}]}}"; [];
   [xff]; [];
   bq "data: {'content':{'parts':[{'text':'B'}]}}"].

(** *** The conversation, as read off the events *)

(** The content dictionary of an event, when the event is a dictionary
    and its content is one. *)
Definition event_content (event : value) : option (list (str * value)) :=
  match event with
  | VDict ed =>
    match get (py "content") (VDict []) ed with
    | VDict cd => Some cd
    | _ => None
    end
  | _ => None
  end.

(** The author of an event, "unknown" when it names none. *)
Definition event_author (event : value) : value :=
  match event with
  | VDict ed => get (py "author") (VStr (py "unknown")) ed
  | _ => VStr (py "unknown")
  end.

(** The role of an event: the role its content declares, else its
    author. *)
Definition event_role (event : value) : value :=
  match event_content event with
  | Some cd => get (py "role") (event_author event) cd
  | None => event_author event
  end.

(** The text a part contributes: its [text] when that is a string,
    nothing when the part has no [text], a null one, or is no
    dictionary. *)
Definition part_text (part : value) : str :=
  match part with
  | VDict pd =>
    match dict_get (py "text") pd with
    | Some (VStr s) => s
    | _ => []
    end
  | _ => []
  end.

Definition event_text (event : value) : str :=
  match event_content event with
  | Some cd =>
    match get (py "parts") (VList []) cd with
    | VList ps => List.concat (map part_text ps)
    | _ => []
    end
  | None => []
  end.

(** Under which of the two chat roles the message of an event is shown. *)
Definition shown_role (event : value) : str :=
  if is_str (py "user") (event_role event) || is_str (py "user") (event_author event)
  then py "user" else py "assistant".

(** The message of one event, if it has one. *)
Definition message_of (event : value) : list ui :=
  match event_content event with
  | Some _ =>
    if nonempty (strip (event_text event))
    then [UChat (shown_role event) (VStr (event_text event))]
    else []
  | None => []
  end.

Definition reconstruct (events : list value) : list ui :=
  flat_map message_of events.

(** The specification's wording of the role of a message: the role
    of the event itself. *)
Definition message_as_claimed (event : value) : list ui :=
  match event_content event with
  | Some _ =>
    if nonempty (strip (event_text event))
    then [UChat (match event_role event with VStr s => s | _ => [] end)
            (VStr (event_text event))]
    else []
  | None => []
  end.

Definition reconstruct_as_claimed (events : list value) : list ui :=
  flat_map message_as_claimed events.

(** Events of the data model: the parts form a list, and a [text] is a
    string or null. *)
Definition text_ok (part : value) : bool :=
  match part with
  | VDict pd =>
    match dict_get (py "text") pd with
    | Some (VStr _) | Some VNone | None => true
    | Some _ => false
    end
  | _ => true
  end.

Definition well_formed (event : value) : bool :=
  match event_content event with
  | Some cd =>
    match get (py "parts") (VList []) cd with
    | VList ps => forallb text_ok ps
    | _ => false
    end
  | None => true
  end.

(** What a history shows: a note when there is no event, the messages
    otherwise. *)
Definition history_shown (no_history : str) (events : list value) : list ui :=
  match events with
  | [] => [UInfo no_history]
  | _ => reconstruct events
  end.

(** The event list of the specification's example, and one in which
    the content declares a role that is not the author. *)
Definition example_events : list value :=
  [VDict [(py "author", VStr (py "user"));
          (py "content", VDict [(py "parts", VList [VDict [(py "text", VStr (py "hi"))]])])];
   VDict [(py "author", VStr (py "agent"));
          (py "content", VDict [(py "parts", VList [VDict [(py "text", VStr [])]])])]].

Definition user_event_declared_model : value :=
  VDict [(py "author", VStr (py "user"));
         (py "content",
          VDict [(py "role", VStr (py "model"));
                 (py "parts", VList [VDict [(py "text", VStr (py "x"))]])])].

(** *** The operations of the session transport *)













(** *** Computations that only write on the screen *)

(** A computation whose result and output are the same in every world,
    and which leaves the session state alone. *)
Definition oblivious {A : Type} (m : M A) : Prop :=
  exists (r : result A) (out : list ui), forall w, m w = (r, with_shown w out).

(** *** The two programs behind one face *)

Inductive program :=
| Local (E : AppLocal.env)
| Engine (G : AppAgentEngine.env).

(** The delete call [main] makes for a listed session. *)
Definition delete_call (p : program) (user_id session_id : str) : M bool :=
  match p with
  | Local E =>
    AppLocal.delete_session E (AppLocal.APP_NAME E) user_id (VStr session_id)
  | Engine G =>
    AppAgentEngine.delete_session_by_id G (AppAgentEngine.RESOURCE_ID G) user_id
      (VStr session_id)
  end.

Definition delete_button (p : program) (user_id session_id : str) : M unit :=
  match p with
  | Local E => AppLocal.main_delete_button E user_id session_id
  | Engine G => AppAgentEngine.main_delete_button G user_id session_id
  end.

(** The active session: [st.session_state.session_id], [None] when no
    session is active. *)
Definition active (w : world) : value := session_id (state w).

(** A world in which the session [s1] is active. *)
Definition chatting : world :=
  mk_world (mk_state (VStr (py "s1")) (VList []) false (py "test_user")) [].

(** A stream whose only event carries a text of three spaces. *)
Definition blank_stream : list bytes :=
  [bq "data: {'content':{'parts':[{'text':'   '}]}}"].

Definition nonblank (s : str) : bool := nonempty (strip s).

(** The create call [main] makes, and the two other buttons. *)
Definition create_call (p : program) (user_id : str) : M value :=
  match p with
  | Local E => AppLocal.create_session E (AppLocal.APP_NAME E) user_id None
  | Engine G =>
    AppAgentEngine.create_new_session G (AppAgentEngine.RESOURCE_ID G) user_id
  end.

Definition create_button (p : program) (user_id : str) : M unit :=
  match p with
  | Local E => AppLocal.main_create_button E user_id
  | Engine G => AppAgentEngine.main_create_button G user_id
  end.

Definition select_button (p : program) (session_id : str) : M unit :=
  match p with
  | Local _ => AppLocal.main_select_button session_id
  | Engine _ => AppAgentEngine.main_select_button session_id
  end.

(** The request [create_session] sends without seed data. *)
Definition create_request (E : AppLocal.env) (app_name user_id : str) : request :=
  mk_request POST (AppLocal.sessions_url E app_name user_id) AppLocal.HEADERS
    (Some (VDict [])) false.

(** The body of the specification's stream example, in one piece. *)
Definition example_body : bytes :=
  bq "data: {'content':{'parts':[{'text':'A'}]}}" ++ [x0a; x0a]
    ++ bq "data: not-json" ++ [x0a; x0a]
    ++ bq "data: {'content':{'parts':[{'text':'B'}]}}" ++ [x0a].



(* ================================================================== *)
(** ** More of the two [main] functions

    The headings, the dividers and the configuration footer are not
    recorded on the screen of the model; the message boxes and the chat
    messages are. *)

Module LocalMain.

Section Main.

Variable E : AppLocal.env.

(** The refresh button and the fetch of the session list
    ([app_local.py], lines 245-250). *)
Definition main_refresh (user_id : str) (refresh_clicked : bool) : M unit :=
  (if refresh_clicked then
     s <- get_state ;;
     put_state (mk_state (session_id s) (sessions s) true (user_name s))
   else ret tt) ;;
  s <- get_state ;;
  if refresh_sessions s then
    listed <- AppLocal.list_sessions E (AppLocal.APP_NAME E) user_id ;;
    s <- get_state ;;
    put_state (mk_state (session_id s) listed (refresh_sessions s) (user_name s)) ;;
    s <- get_state ;;
    put_state (mk_state (session_id s) (sessions s) false (user_name s))
  else ret tt.

Definition could_not_load : str :=
  py "Could not load session details. Please try refreshing or creating a new session.".

Definition select_or_create : str :=
  [128072%N]
    ++ py " Please select or create a session from the sidebar to start chatting.".

(** The main chat area (lines 284-313); [user_message] is what
    [st.chat_input] returns. *)
Definition main_chat_area (user_id : str) (user_message : option str) : M unit :=
  s <- get_state ;;
  if truthy (session_id s) then
    session_details <-
      AppLocal.get_session E (AppLocal.APP_NAME E) user_id (session_id s) ;;
    if truthy session_details then
      match session_details with
      | VDict d => AppLocal.display_conversation_history d
      | _ => raise (mk_exn AttributeError (py "object has no attribute 'get'"))
      end ;;
      match user_message with
      | Some m =>
        if nonempty m then AppLocal.main_chat_input E user_id m else ret tt
      | None => ret tt
      end
    else st_error could_not_load
  else st_info select_or_create.

End Main.

End LocalMain.

Module EngineMain.

Section Main.

Variable G : AppAgentEngine.env.

(** [app_agentEngine.py], lines 209-214. *)
Definition main_refresh (user_id : str) (refresh_clicked : bool) : M unit :=
  (if refresh_clicked then
     s <- get_state ;;
     put_state (mk_state (session_id s) (sessions s) true (user_name s))
   else ret tt) ;;
  s <- get_state ;;
  if refresh_sessions s then
    listed <- AppAgentEngine.get_sessions_list G (AppAgentEngine.RESOURCE_ID G)
                user_id ;;
    s <- get_state ;;
    put_state (mk_state (session_id s) listed (refresh_sessions s) (user_name s)) ;;
    s <- get_state ;;
    put_state (mk_state (session_id s) (sessions s) false (user_name s))
  else ret tt.

Definition could_not_load : str :=
  py "Impossibile caricare i dettagli della sessione. Riprova ad aggiornare o crea una nuova sessione.".

Definition select_or_create : str :=
  [128072%N]
    ++ py " Seleziona o crea una sessione dalla sidebar per iniziare a chattare.".

(** Lines 249-279. *)
Definition main_chat_area (user_id : str) (user_message : option str) : M unit :=
  s <- get_state ;;
  if truthy (session_id s) then
    session_details <-
      AppAgentEngine.get_session_details G (AppAgentEngine.RESOURCE_ID G) user_id
        (session_id s) ;;
    if truthy session_details then
      match session_details with
      | VDict d => AppAgentEngine.display_conversation_history G d
      | _ => raise (mk_exn AttributeError (py "object has no attribute 'get'"))
      end ;;
      match user_message with
      | Some m =>
        if nonempty m then AppAgentEngine.main_chat_input G user_id m else ret tt
      | None => ret tt
      end
    else st_error could_not_load
  else st_info select_or_create.

End Main.

End EngineMain.

(* ================================================================== *)
(** ** [app old.py]: the first chat script

    One run of the script body: the stored messages are shown again,
    and a prompt, if one was typed, is stored, shown, and sent to the
    agent.  [query] stands for [agent.query(input=prompt)]. *)

Module AppOld.

(** An element of [st.session_state.messages]. *)
Record message := mk_message { role : str; content : value }.

Definition shows (m : message) : ui := UChat (role m) (content m).

(** [response.get("output") if isinstance(response, dict) else response] *)
Definition answer_of (response : value) : value :=
  match response with
  | VDict d => get (py "output") VNone d
  | _ => response
  end.

(** The script from the replay of the history on.  The result is the
    stored history, what was shown, and how the run ended. *)
Definition run (query : str -> result value) (prompt : option str)
  (messages : list message) : list message * list ui * result unit :=
  let replay := map shows messages in
  match prompt with
  | Some p =>
    if nonempty p then
      let messages := messages ++ [mk_message (py "user") (VStr p)] in
      let shown := replay ++ [UChat (py "user") (VStr p)] in
      match query p with
      | Ok response =>
        let answer := answer_of response in
        (messages ++ [mk_message (py "assistant") answer],
         shown ++ [UChat (py "assistant") answer], Ok tt)
      | Raise e =>
        if is_Exception e
        then (messages, shown ++ [UError (py "Errore: " ++ exn_text e)], Ok tt)
        else (messages, shown, Raise e)
      end
    else (messages, replay, Ok tt)
  | None => (messages, replay, Ok tt)
  end.

(** Successive runs, each on the history the one before has left. *)
Fixpoint runs (query : str -> result value) (prompts : list (option str))
  (messages : list message) : list message :=
  match prompts with
  | [] => messages
  | p :: rest => runs query rest (fst (fst (run query p messages)))
  end.

End AppOld.

(* ================================================================== *)
(** ** More notions the statements use *)

Definition list_call (p : program) (user_id : str) : M value :=
  match p with
  | Local E => AppLocal.list_sessions E (AppLocal.APP_NAME E) user_id
  | Engine G =>
    AppAgentEngine.get_sessions_list G (AppAgentEngine.RESOURCE_ID G) user_id
  end.

Definition get_call (p : program) (user_id : str) (session_id : value) : M value :=
  match p with
  | Local E => AppLocal.get_session E (AppLocal.APP_NAME E) user_id session_id
  | Engine G =>
    AppAgentEngine.get_session_details G (AppAgentEngine.RESOURCE_ID G) user_id
      session_id
  end.

Definition refresh (p : program) (user_id : str) (refresh_clicked : bool) : M unit :=
  match p with
  | Local E => LocalMain.main_refresh E user_id refresh_clicked
  | Engine G => EngineMain.main_refresh G user_id refresh_clicked
  end.

Definition chat_area (p : program) (user_id : str) (user_message : option str)
  : M unit :=
  match p with
  | Local E => LocalMain.main_chat_area E user_id user_message
  | Engine G => EngineMain.main_chat_area G user_id user_message
  end.

Definition could_not_load (p : program) : str :=
  match p with
  | Local _ => LocalMain.could_not_load
  | Engine _ => EngineMain.could_not_load
  end.

Definition select_or_create (p : program) : str :=
  match p with
  | Local _ => LocalMain.select_or_create
  | Engine _ => EngineMain.select_or_create
  end.

(** Whether the handlers of a program let an exception through. *)
Definition let_through (p : program) (e : exn) : bool :=
  match p with
  | Local _ => negb (is_RequestException e)
  | Engine _ => negb (is_Exception e)
  end.


Definition is_dict (v : value) : bool :=
  match v with VDict _ => true | _ => false end.


Definition get_request (E : AppLocal.env) (app_name user_id : str)
  (session_id : value) : request :=
  mk_request GET
    (AppLocal.sessions_url E app_name user_id ++ py "/" ++ AppLocal.fstr E session_id)
    AppLocal.HEADERS None false.

(** *** Streamed events, as the local [main] reads them *)

(** The values a part adds to the responses: its [text], if it has
    one. *)
Definition part_texts (part : value) : list value :=
  match part with
  | VDict pd =>
    match dict_get (py "text") pd with
    | Some t => [t]
    | None => []
    end
  | _ => []
  end.

(** A streamed event that is a dictionary whose [content], if any, is a
    dictionary whose [parts], if any, are a list of dictionaries. *)
Definition stream_event_ok (event : value) : bool :=
  match event with
  | VDict ed =>
    match dict_get (py "content") ed with
    | None => true
    | Some (VDict cd) =>
      match dict_get (py "parts") cd with
      | None => true
      | Some (VList ps) => forallb is_dict ps
      | Some _ => false
      end
    | Some _ => false
    end
  | _ => false
  end.

Definition stream_texts (event : value) : list value :=
  match event with
  | VDict ed =>
    match dict_get (py "content") ed with
    | Some (VDict cd) =>
      match dict_get (py "parts") cd with
      | Some (VList ps) => flat_map part_texts ps
      | _ => []
      end
    | _ => []
    end
  | _ => []
  end.

(** A number or a truth value. *)
Definition is_scalar (v : value) : bool :=
  match v with
  | VBool _ | VInt _ | VFloat _ => true
  | _ => false
  end.

(** What the local [main] shows for the texts it has collected. *)
Definition local_responses_shown (texts : list value) : list ui :=
  match texts with
  | [] => [UError (py "No response received from the agent.")]
  | _ => map (UChat (py "assistant")) texts
  end.

Definition rerun : exn := mk_exn RerunException [].

(** *** Streamed events, as [send_message_to_agent] reads them *)

(** The response a part gives: its [text] as a string, when the text is
    truthy and not blank. *)
Definition engine_part_texts (G : AppAgentEngine.env) (part : value) : list str :=
  match part with
  | VDict pd =>
    match dict_get (py "text") pd with
    | Some t =>
      if truthy t && nonblank (AppAgentEngine.to_str G t)
      then [AppAgentEngine.to_str G t] else []
    | None => []
    end
  | _ => []
  end.

(** The parts of an event, when the event and its content are
    dictionaries: [Raise] when they cannot be iterated over. *)
Definition engine_parts (event : value) : option (result (list value)) :=
  match event with
  | VDict ed =>
    match get (py "content") (VDict []) ed with
    | VDict cd => Some (iterate (get (py "parts") (VList []) cd))
    | _ => None
    end
  | _ => None
  end.

Definition engine_event_texts (G : AppAgentEngine.env) (event : value) : list str :=
  match engine_parts event with
  | Some (Ok ps) => flat_map (engine_part_texts G) ps
  | _ => []
  end.

(** An event whose parts, if it has a content dictionary, can be
    iterated over. *)
Definition engine_event_ok (event : value) : bool :=
  match engine_parts event with
  | Some (Raise _) => false
  | _ => true
  end.

(** An engine that is reached and whose stream delivers the given
    events and then ends as given; the session it knows holds the same
    events. *)
Definition scripted_app (events : list value) (tail : option exn)
  : AppAgentEngine.remote_app :=
  AppAgentEngine.mk_remote_app
    (fun _ => Ok (VStr (py "s1")))
    (fun _ => Ok (VList [VDict [(py "id", VStr (py "s1"))]]))
    (fun _ _ => Ok (VDict [(py "id", VStr (py "s1")); (py "events", VList events)]))
    (fun _ _ => Ok VNone)
    (fun _ _ _ => (events, tail)).

Definition scripted_engine (events : list value) (tail : option exn)
  : AppAgentEngine.env :=
  engine_env (fun _ => Ok (scripted_app events tail)).

(** An object [for x in v] can visit. *)
Definition iterable (v : value) : bool :=
  match v with
  | VList _ | VDict _ | VStr _ => true
  | _ => false
  end.

(** An event whose parts are null. *)
Definition null_parts_event : value :=
  VDict [(py "content", VDict [(py "parts", VNone)])].

(** The history display of a program. *)
Definition history (p : program) (session_details : list (str * value)) : M unit :=
  match p with
  | Local _ => AppLocal.display_conversation_history session_details
  | Engine G => AppAgentEngine.display_conversation_history G session_details
  end.

(** *** The history, when texts are no strings *)

(** The text a part contributes in the engine adapter: [str()] of its
    [text] unless that is missing or null. *)
Definition engine_history_part_text (G : AppAgentEngine.env) (part : value) : str :=
  match part with
  | VDict pd =>
    match dict_get (py "text") pd with
    | Some t => if is_none t then [] else AppAgentEngine.to_str G t
    | None => []
    end
  | _ => []
  end.

Definition engine_history_message (G : AppAgentEngine.env) (event : value)
  : list ui :=
  match engine_parts event with
  | Some (Ok ps) =>
    let text := List.concat (map (engine_history_part_text G) ps) in
    if nonempty (strip text) then [UChat (shown_role event) (VStr text)] else []
  | _ => []
  end.

(** An event with a part whose text is a number. *)
Definition number_text_event : value :=
  VDict [(py "author", VStr (py "agent"));
         (py "content", VDict [(py "parts", VList [VDict [(py "text", VInt 42)]])])].

(** *** The stored history of the first chat script *)

(** A history made of user messages, each followed by at most one
    assistant message. *)
Inductive conversation : list AppOld.message -> Prop :=
| conversation_nil : conversation []
| conversation_unanswered (p : str) (rest : list AppOld.message) :
    conversation rest ->
    conversation (AppOld.mk_message (py "user") (VStr p) :: rest)
| conversation_answered (p : str) (a : value) (rest : list AppOld.message) :
    conversation rest ->
    conversation (AppOld.mk_message (py "user") (VStr p)
                    :: AppOld.mk_message (py "assistant") a :: rest).

(** The history, the screen and the end of a run. *)
Definition stored (r : list AppOld.message * list ui * result unit)
  : list AppOld.message := fst (fst r).

Definition displayed (r : list AppOld.message * list ui * result unit) : list ui :=
  snd (fst r).

(** *** Texts beyond the limits of the interpreter *)

(** A hundred thousand arrays, one inside the other. *)
Definition nesting : nat := N.to_nat 100000.

Definition deeply_nested : str := repeat 91%N nesting ++ repeat 93%N nesting.

(** A response with that body. *)
Definition nested_response (status : Z) : response :=
  mk_response status [] [] [(py "content-type", py "application/json")]
    (repeat x5b nesting ++ repeat x5d nesting) deeply_nested [] None.

(** A payload line that holds an integer of five thousand digits. *)
Definition long_integer_line : bytes := bq "data: " ++ repeat x31 (N.to_nat 5000).

(** The prompt of a run, when something was typed
    ([if prompt := st.chat_input(...)]). *)
Definition typed (prompt : option str) : option str :=
  match prompt with
  | Some p => if nonempty p then Some p else None
  | None => None
  end.

(** The two messages a run stores. *)
Definition user_message (p : str) : AppOld.message :=
  AppOld.mk_message (py "user") (VStr p).

Definition answer_message (response : value) : AppOld.message :=
  AppOld.mk_message (py "assistant") (AppOld.answer_of response).

(** An agent that answers every prompt, and one that fails on every
    prompt. *)
Definition answering : str -> result value :=
  fun _ => Ok (VDict [(py "output", VStr (py "salve"))]).

Definition failing : str -> result value :=
  fun _ => Raise (mk_exn OtherException (py "quota exceeded")).

(** *** A backend before and after a deletion *)

(** A backend on which the session [s1] exists: it lists it and accepts
    its deletion. *)
Definition backend_with_s1 : request -> http_outcome :=
  fun rq =>
    match req_method rq with
    | DELETE => Responded (ascii_response 204 [] "")
    | _ => Responded (json_response 200 "[{'id': 's1'}]")
    end.

(** A world in which [s1] is listed and active. *)
Definition listing_s1 : world :=
  mk_world
    (mk_state (VStr (py "s1")) (VList [VDict [(py "id", VStr (py "s1"))]]) false
       (py "test_user"))
    [].

(* ================================================================== *)
(** ** Basic facts *)

Lemma str_eqb_refl (s : str) : str_eqb s s = true.
Proof.
  induction s as [|c s IH]; simpl; [reflexivity|].
  now rewrite N.eqb_refl, IH.
Qed.

Lemma str_eqb_eq (x y : str) : str_eqb x y = true <-> x = y.
Proof.
  split.
  - revert y; induction x as [|c x IH]; intros [|d y] H; simpl in H;
      try discriminate; [reflexivity|].
    apply andb_true_iff in H as [Hc Hx].
    apply N.eqb_eq in Hc. apply IH in Hx. now subst.
  - intros ->. apply str_eqb_refl.
Qed.

Lemma is_str_eq (k : str) (v : value) : is_str k v = true <-> v = VStr k.
Proof.
  destruct v; simpl; try (split; [discriminate | intros H; discriminate H]).
  rewrite str_eqb_eq. split; [now intros -> | now intros [= ->]].
Qed.

(** [Response.ok] fails exactly on the 4xx and 5xx codes. *)
Lemma ok_spec (r : response) :
  ok r = negb (error_status (status_code r)).
Proof.
  unfold ok, raise_for_status, error_status.
  destruct (400 <=? status_code r)%Z eqn:H4; simpl;
    destruct (status_code r <? 500)%Z eqn:H5; simpl;
    destruct (status_code r <? 600)%Z eqn:H6; simpl; try reflexivity;
    destruct (500 <=? status_code r)%Z eqn:H7; simpl; try reflexivity; lia.
Qed.

Lemma lstrip_nil (s : str) : lstrip s = [] <-> forallb isspace s = true.
Proof.
  induction s as [|c s IH]; simpl; [tauto|].
  destruct (isspace c); simpl; [exact IH|].
  split; discriminate.
Qed.

Lemma lstrip_head (s : str) (c : N) (t : str) :
  lstrip s = c :: t -> isspace c = false.
Proof.
  induction s as [|d s IH]; simpl; [discriminate|].
  destruct (isspace d) eqn:Hd; [exact IH|].
  now intros [= <- _].
Qed.

(** A string strips to nothing exactly when it is all whitespace. *)
Lemma strip_nil (s : str) : strip s = [] <-> forallb isspace s = true.
Proof.
  unfold strip, rstrip. split.
  - intros H.
    assert (H' : lstrip (rev (lstrip s)) = []).
    { rewrite <- (rev_involutive (lstrip (rev (lstrip s)))). now rewrite H. }
    apply lstrip_nil in H'.
    destruct (lstrip s) as [|c t] eqn:Hs; [now apply lstrip_nil|].
    apply lstrip_head in Hs.
    rewrite forallb_forall in H'.
    specialize (H' c). rewrite <- in_rev in H'.
    rewrite H' in Hs by now left. discriminate.
  - intros H. apply lstrip_nil in H. now rewrite H.
Qed.

Lemma empty_body_iff (r : response) :
  empty_body r = true <-> nothing_to_decode r.
Proof.
  unfold empty_body, nothing_to_decode.
  rewrite !orb_true_iff, Z.eqb_eq, str_eqb_eq, strip_nil.
  destruct (content r); intuition discriminate.
Qed.

(** *** The response decoder, case by case *)

Lemma parse_json_or_empty_cases (E : AppLocal.env) (r : response)
  (on_empty : value) (w : world) :
  AppLocal._parse_json_or_empty E r on_empty w =
  if empty_body r then (Ok (fallback on_empty), w)
  else match AppLocal.loads E (text r) with
       | Ok v => (Ok v, w)
       | Raise e =>
         if is_ValueError e
         then (Ok (fallback on_empty),
               with_shown w [UError (AppLocal.non_json_message r)])
         else (Raise e, w)
       end.
Proof.
  unfold AppLocal._parse_json_or_empty, try_except, empty_body, fallback.
  destruct ((status_code r =? 204)%Z
            || match content r with [] => true | _ => false end
            || str_eqb (strip (text r)) []); [reflexivity|].
  unfold AppLocal.json.
  destruct (AppLocal.loads E (text r)) as [v|[k t]]; [reflexivity|].
  destruct k; reflexivity.
Qed.

(** The decoder raises only what the JSON decoder raised, never a
    [ValueError], and then leaves the screen as it was. *)
Lemma parse_json_or_empty_raises (E : AppLocal.env) (r : response)
  (on_empty : value) (w w' : world) (e : exn) :
  AppLocal._parse_json_or_empty E r on_empty w = (Raise e, w') ->
  AppLocal.loads E (text r) = Raise e /\ is_ValueError e = false /\ w' = w.
Proof.
  rewrite parse_json_or_empty_cases.
  destruct (empty_body r); [discriminate|].
  destruct (AppLocal.loads E (text r)) as [v|e0]; [discriminate|].
  destruct (is_ValueError e0) eqn:He; [discriminate|].
  intros [= -> ->]. auto.
Qed.

(* ================================================================== *)
(** ** Session creation (C1) *)

(** C1.  The claim lists [{session: {id: ...}}] among the shapes
    [create_session] reads an id from, and a warning whenever no id is
    found.  Evaluated on the code: a 200 response whose body is
    [{"session": {"id": "s1"}}] gives [None] and shows nothing, because
    every dictionary is answered by [data.get("id")] before the test for
    a nested session is reached; the body [{}] likewise gives [None]
    without the warning. *)
Theorem C1_create_session_nested_id_lost :
  forall (user_id : str) (w : world),
    AppLocal.create_session
      (local_env (answers (json_response 200 nested_id_body)))
      (py "greeting_agent") user_id None w
    = (Ok VNone, w)
    /\ AppLocal.create_session
         (local_env (answers (json_response 200 "{}")))
         (py "greeting_agent") user_id None w
       = (Ok VNone, w).
Proof.
  intros user_id w. split; reflexivity.
Qed.

(** What [create_session] makes of an accepted response whose body
    decodes to [data]: the [id] of a dictionary ([None] when it has
    none, whatever else it holds), the [id] of the first element of a
    list, and otherwise [None] with a warning. *)
Lemma create_session_by_shape (E : AppLocal.env) (app_name user_id : str)
  (w : world) (r : response) (data : value) :
  AppLocal.send E (create_request E app_name user_id) = Responded r ->
  error_status (status_code r) = false ->
  empty_body r = false ->
  AppLocal.loads E (text r) = Ok data ->
  AppLocal.create_session E app_name user_id None w
  = match data with
    | VDict d => (Ok (get (py "id") VNone d), w)
    | VList (VDict maybe :: _) =>
      match dict_get (py "id") maybe with
      | Some i => (Ok i, w)
      | None => (Ok VNone, with_shown w [UWarning AppLocal.no_id_warning])
      end
    | _ => (Ok VNone, with_shown w [UWarning AppLocal.no_id_warning])
    end.
Proof.
  intros Hsend Hst Hbody Hdata.
  unfold AppLocal.create_session, try_except, bind, AppLocal.call.
  unfold create_request in Hsend. rewrite Hsend. unfold ret at 1, lift.
  assert (Hok : raise_for_status r = Ok tt).
  { pose proof (ok_spec r) as Hk. rewrite Hst in Hk. unfold ok in Hk.
    destruct (raise_for_status r) as [[]|]; [reflexivity|discriminate]. }
  rewrite Hok, parse_json_or_empty_cases, Hbody, Hdata.
  destruct data as [| | | | |l|d]; try reflexivity.
  destruct l as [|[| | | | | |maybe] l]; try reflexivity.
  simpl. destruct (dict_get (py "id") maybe); reflexivity.
Qed.

(** A list whose first element has an id, and a bare id string. *)
Lemma create_session_by_shape_examples :
  AppLocal.create_session
    (local_env (answers (json_response 200 "[{'id': 's1'}]")))
    (py "greeting_agent") (py "test_user") None fresh
  = (Ok (VStr (py "s1")), fresh)
  /\ AppLocal.create_session
       (local_env (answers (json_response 200 "'s1'")))
       (py "greeting_agent") (py "test_user") None fresh
     = (Ok VNone, with_shown fresh [UWarning AppLocal.no_id_warning]).
Proof.
  split.
  - apply (create_session_by_shape
             (local_env (answers (json_response 200 "[{'id': 's1'}]")))
             (py "greeting_agent") (py "test_user") fresh
             (json_response 200 "[{'id': 's1'}]")
             (VList [VDict [(py "id", VStr (py "s1"))]]));
      reflexivity.
  - apply (create_session_by_shape
             (local_env (answers (json_response 200 "'s1'")))
             (py "greeting_agent") (py "test_user") fresh
             (json_response 200 "'s1'") (VStr (py "s1")));
      reflexivity.
Defined.

(* ================================================================== *)
(** ** Session deletion (C2) *)

(** C2, as stated, fails: the claim has [delete_session] return true
    for the statuses 200, 202 and 204 only, yet a 201 answer, which is
    none of them, gives true (the function falls back on [resp.ok]). *)
Lemma C2_status_201_counts_as_deleted :
  fst (AppLocal.delete_session
         (local_env (answers (ascii_response 201 [] "")))
         (py "greeting_agent") (py "test_user") (VStr (py "s1")) fresh)
  = Ok true
  /\ ~ In 201%Z [200; 202; 204]%Z.
Proof.
  split.
  - reflexivity.
  - simpl. intros [H | [H | [H | []]]]; discriminate H.
Qed.

(** C2, amended.  Whatever response answers the DELETE request:
    the statuses 200, 202 and 204 are accepted at once, with the result
    true, nothing shown and no look at the body.  For every other status
    the body is read for diagnosis and the result is [resp.ok], false
    exactly for a 4xx or 5xx code: nothing is shown when there is
    nothing to decode or the body decodes, and the decoder's diagnostic
    when the JSON decoder fails with a [ValueError].  Any other
    exception of the JSON decoder ends the call: it reaches the caller,
    unless it is a [RequestException], which is reported with the
    result false. *)
Theorem C2_delete_session_by_status (E : AppLocal.env) (app_name user_id : str)
  (session_id : value) (w : world) (r : response) :
  AppLocal.send E (delete_request E app_name user_id session_id) = Responded r ->
  (In (status_code r) [200; 202; 204]%Z ->
   AppLocal.delete_session E app_name user_id session_id w = (Ok true, w))
  /\ (~ In (status_code r) [200; 202; 204]%Z ->
      (nothing_to_decode r ->
       AppLocal.delete_session E app_name user_id session_id w
       = (Ok (negb (error_status (status_code r))), w))
      /\ (~ nothing_to_decode r ->
          forall v, AppLocal.loads E (text r) = Ok v ->
          AppLocal.delete_session E app_name user_id session_id w
          = (Ok (negb (error_status (status_code r))), w))
      /\ (~ nothing_to_decode r ->
          forall e, AppLocal.loads E (text r) = Raise e ->
          AppLocal.delete_session E app_name user_id session_id w
          = if is_ValueError e then
              (Ok (negb (error_status (status_code r))),
               with_shown w [UError (AppLocal.non_json_message r)])
            else if is_RequestException e then
              (Ok false,
               with_shown w
                 [UError (py "Error deleting session "
                            ++ AppLocal.fstr E session_id ++ py ": "
                            ++ exn_text e)])
            else (Raise e, w))).
Proof.
  intros Hsend.
  assert (Hin : In (status_code r) [200; 202; 204]%Z
                <-> existsb (Z.eqb (status_code r)) [200; 202; 204]%Z = true).
  { rewrite existsb_exists. split.
    - intros H. exists (status_code r). split; [exact H|apply Z.eqb_refl].
    - intros (x & Hx & Heq). apply Z.eqb_eq in Heq. now subst x. }
  assert (Hcall : AppLocal.delete_session E app_name user_id session_id w
          = if existsb (Z.eqb (status_code r)) [200; 202; 204]%Z
            then (Ok true, w)
            else match AppLocal._parse_json_or_empty E r VNone w with
                 | (Ok _, w') => (Ok (negb (error_status (status_code r))), w')
                 | (Raise e, w') =>
                   if is_RequestException e then
                     (Ok false,
                      with_shown w'
                        [UError (py "Error deleting session "
                                   ++ AppLocal.fstr E session_id ++ py ": "
                                   ++ exn_text e)])
                   else (Raise e, w')
                 end).
  { unfold AppLocal.delete_session, try_except, bind, AppLocal.call.
    unfold delete_request in Hsend. rewrite Hsend. unfold ret at 1.
    destruct (existsb (Z.eqb (status_code r)) [200; 202; 204]%Z);
      [reflexivity|].
    destruct (AppLocal._parse_json_or_empty E r VNone w) as [[v|e] w'].
    - unfold ret. now rewrite ok_spec.
    - destruct (is_RequestException e); reflexivity. }
  split.
  - intros H. apply Hin in H. now rewrite Hcall, H.
  - intros H.
    assert (Hout : existsb (Z.eqb (status_code r)) [200; 202; 204]%Z = false).
    { destruct (existsb (Z.eqb (status_code r)) [200; 202; 204]%Z) eqn:Hx;
        [|reflexivity].
      exfalso. now apply H, Hin. }
    rewrite Hcall, Hout, parse_json_or_empty_cases.
    split; [|split].
    + intros Hn. apply empty_body_iff in Hn. now rewrite Hn.
    + intros Hn v Hv.
      assert (Hb : empty_body r = false).
      { destruct (empty_body r) eqn:Hb; [|reflexivity].
        exfalso. now apply Hn, empty_body_iff. }
      now rewrite Hb, Hv.
    + intros Hn e He.
      assert (Hb : empty_body r = false).
      { destruct (empty_body r) eqn:Hb; [|reflexivity].
        exfalso. now apply Hn, empty_body_iff. }
      rewrite Hb, He.
      destruct (is_ValueError e); [reflexivity|].
      destruct (is_RequestException e); reflexivity.
Qed.

(** The statuses the specification names: 204 gives true, 500 with a
    JSON body false; and a 500 answer whose body is nested beyond the
    limit of the interpreter, on which the call raises. *)
Lemma C2_delete_session_204_and_500 :
  AppLocal.delete_session
    (local_env (answers (ascii_response 204 [] "")))
    (py "greeting_agent") (py "test_user") (VStr (py "s1")) fresh
  = (Ok true, fresh)
  /\ AppLocal.delete_session
       (local_env (answers (json_response 500 "{'detail': 'boom'}")))
       (py "greeting_agent") (py "test_user") (VStr (py "s1")) fresh
     = (Ok false, fresh)
  /\ AppLocal.delete_session
       (local_env (answers (nested_response 500)))
       (py "greeting_agent") (py "test_user") (VStr (py "s1")) fresh
     = (Raise (recursion_error "array"), fresh).
Proof.
  split; [|split].
  - refine (proj1 (C2_delete_session_by_status
                     (local_env (answers (ascii_response 204 [] "")))
                     (py "greeting_agent") (py "test_user") (VStr (py "s1")) fresh
                     (ascii_response 204 [] "") eq_refl) _).
    simpl. auto.
  - refine (proj1 (proj2 (proj2 (C2_delete_session_by_status
                     (local_env (answers (json_response 500 "{'detail': 'boom'}")))
                     (py "greeting_agent") (py "test_user") (VStr (py "s1")) fresh
                     (json_response 500 "{'detail': 'boom'}") eq_refl) _))
              _ (VDict [(py "detail", VStr (py "boom"))]) _).
    + simpl. intros [H | [H | [H | []]]]; discriminate H.
    + intros [H | [H | H]]; discriminate H.
    + reflexivity.
  - refine (proj2 (proj2 (proj2 (C2_delete_session_by_status
                     (local_env (answers (nested_response 500)))
                     (py "greeting_agent") (py "test_user") (VStr (py "s1")) fresh
                     (nested_response 500) eq_refl) _))
              _ (recursion_error "array") _).
    + simpl. intros [H | [H | [H | []]]]; discriminate H.
    + intros [H | [H | H]]; [discriminate H | discriminate H |].
      lazy in H. discriminate H.
    + vm_compute. reflexivity.
Defined.

(* ================================================================== *)
(** ** Timestamps (C3) *)

Section Timestamps.

Variable sentinel : str.
Variable utcoffset : Z.
Variable fromisoformat : str -> option datetime.







End Timestamps.




(* ================================================================== *)
(** ** The response decoder (C4) *)

(** C4, as stated, fails: a caller that names [None] as its default, as
    [get_session], [delete_session] and [create_session] do, gets an
    empty list back on a 204 answer. *)
Lemma C4_none_default_becomes_list :
  fst (AppLocal._parse_json_or_empty
         (local_env (answers (ascii_response 204 [] "")))
         (ascii_response 204 [] "") VNone fresh)
  <> Ok VNone.
Proof.
  vm_compute. discriminate.
Qed.

(** C4, amended.  No [ValueError] of the JSON decoder, a text that is
    not JSON among them, reaches the caller; any other exception the
    JSON decoder raises does, with nothing shown.  On status 204 or an
    empty or whitespace-only body the decoder returns the caller's
    default, an empty list standing in for a default of [None], shows
    nothing and does not look at the text.  Otherwise a body that
    decodes is returned as decoded; when the JSON decoder raises a
    [ValueError] the same default is returned and one error is shown
    whose text holds the status code, the content type ("unknown"
    without such a header) and the first 500 characters of the body at
    most. *)
Theorem C4_parse_json_or_empty (E : AppLocal.env) (r : response)
  (on_empty : value) (w : world) :
  (forall e w',
     AppLocal._parse_json_or_empty E r on_empty w = (Raise e, w') ->
     is_ValueError e = false /\ AppLocal.loads E (text r) = Raise e /\ w' = w)
  /\ (nothing_to_decode r ->
      AppLocal._parse_json_or_empty E r on_empty w = (Ok (fallback on_empty), w))
  /\ (~ nothing_to_decode r ->
      forall v, AppLocal.loads E (text r) = Ok v ->
      AppLocal._parse_json_or_empty E r on_empty w = (Ok v, w))
  /\ (~ nothing_to_decode r ->
      forall e, AppLocal.loads E (text r) = Raise e -> is_ValueError e = true ->
      exists msg before between after snippet,
        AppLocal._parse_json_or_empty E r on_empty w
        = (Ok (fallback on_empty), with_shown w [UError msg])
        /\ msg = before ++ str_of_Z (status_code r) ++ between
                   ++ header_get (py "content-type") (py "unknown") (headers r)
                   ++ after ++ snippet ++ [10%N] ++ py "```"
        /\ snippet = firstn 500 (text r)
        /\ (List.length snippet <= 500)%nat)
  /\ (~ nothing_to_decode r ->
      forall e, AppLocal.loads E (text r) = Raise e -> is_ValueError e = false ->
      AppLocal._parse_json_or_empty E r on_empty w = (Raise e, w))
  /\ (on_empty = VNone -> fallback on_empty = VList [])
  /\ (on_empty <> VNone -> fallback on_empty = on_empty).
Proof.
  assert (Hbody : ~ nothing_to_decode r -> empty_body r = false).
  { intros Hne. destruct (empty_body r) eqn:Hb; [|reflexivity].
    exfalso. now apply Hne, empty_body_iff. }
  split; [|split; [|split; [|split; [|split; [|split]]]]].
  - intros e w' H. apply parse_json_or_empty_raises in H.
    destruct H as (Hl & He & Hw). auto.
  - intros H. apply empty_body_iff in H.
    now rewrite parse_json_or_empty_cases, H.
  - intros Hne v Hl.
    now rewrite parse_json_or_empty_cases, (Hbody Hne), Hl.
  - intros Hne e Hl He.
    assert (Ht : nonempty (text r) = true).
    { destruct (text r) eqn:Htx; [|reflexivity].
      exfalso. apply Hne. right. right. now rewrite Htx. }
    exists (AppLocal.non_json_message r).
    exists ([9888; 65039]%N ++ py " Risposta non-JSON dall'API." ++ [10; 10]%N
              ++ py "- Status: ").
    exists ([10]%N ++ py "- Content-Type: ").
    exists ([10]%N ++ py "- Body (snippet):" ++ [10]%N ++ py "```" ++ [10]%N).
    exists (firstn 500 (text r)).
    split; [|split; [|split]].
    + now rewrite parse_json_or_empty_cases, (Hbody Hne), Hl, He.
    + unfold AppLocal.non_json_message. rewrite Ht.
      now rewrite <- !app_assoc.
    + reflexivity.
    + apply firstn_le_length.
  - intros Hne e Hl He.
    now rewrite parse_json_or_empty_cases, (Hbody Hne), Hl, He.
  - intros ->. reflexivity.
  - unfold fallback. destruct on_empty; simpl; congruence.
Qed.

(** A gateway's HTML error page, asked to be decoded with the default
    the session listing names; and a body that is JSON nested beyond the
    limit of the interpreter, on which the decoder raises. *)
Lemma C4_parse_json_or_empty_witness :
  (exists msg before between after snippet,
     AppLocal._parse_json_or_empty
       (local_env (answers (ascii_response 502 [] "<html>Bad Gateway</html>")))
       (ascii_response 502 [] "<html>Bad Gateway</html>") (VList []) fresh
     = (Ok (fallback (VList [])), with_shown fresh [UError msg])
     /\ msg = before ++ str_of_Z 502 ++ between
                ++ header_get (py "content-type") (py "unknown") []
                ++ after ++ snippet ++ [10%N] ++ py "```"
     /\ snippet = firstn 500 (py "<html>Bad Gateway</html>")
     /\ (List.length snippet <= 500)%nat)
  /\ AppLocal._parse_json_or_empty
       (local_env (answers (nested_response 200)))
       (nested_response 200) (VList []) fresh
     = (Raise (recursion_error "array"), fresh).
Proof.
  split.
  - refine (proj1 (proj2 (proj2 (proj2
             (C4_parse_json_or_empty
                (local_env (answers (ascii_response 502 [] "<html>Bad Gateway</html>")))
                (ascii_response 502 [] "<html>Bad Gateway</html>") (VList []) fresh))))
             _ json_decode_error _ _).
    + intros [H | [H | H]]; discriminate H.
    + reflexivity.
    + reflexivity.
  - refine (proj1 (proj2 (proj2 (proj2 (proj2
             (C4_parse_json_or_empty
                (local_env (answers (nested_response 200)))
                (nested_response 200) (VList []) fresh)))))
             _ (recursion_error "array") _ _).
    + intros [H | [H | H]]; [discriminate H | discriminate H |].
      lazy in H. discriminate H.
    + vm_compute. reflexivity.
    + reflexivity.
Defined.

(* ================================================================== *)
(** ** The stream reader (C5) *)

(** The lines of the specification's example body. *)
Lemma example_body_lines : splitlines example_body = example_stream.
Proof. reflexivity. Qed.

(** On lines that are all UTF-8 and that the reader gets over, it
    handles each one on its own and ends as the stream ends. *)
Lemma sse_lines_decoded (E : AppLocal.env) (tail : option exn) :
  forall (lines : list bytes) (decoded : list str),
    map decode_utf8 lines = map Some decoded ->
    forallb (payload_handled E) decoded = true ->
    AppLocal.sse_lines E lines tail
    = (flat_map (sse_line_steps E) decoded,
       match tail with Some e => Raise e | None => Ok tt end).
Proof.
  induction lines as [|line lines IH]; intros [|d decoded] H Hh;
    try discriminate H; [reflexivity|].
  simpl in H. injection H as Hd Hrest.
  simpl in Hh. apply andb_true_iff in Hh as [Hhd Hhrest].
  specialize (IH _ Hrest Hhrest).
  simpl flat_map. destruct line as [|c line].
  - simpl AppLocal.sse_lines. rewrite IH.
    injection Hd as <-. reflexivity.
  - cbn [AppLocal.sse_lines]. rewrite Hd, IH.
    unfold sse_line_steps. unfold payload_handled in Hhd.
    destruct (startswith (py "data: ") d); [|reflexivity].
    destruct (AppLocal.loads E (skipn 6 d)) as [v|e]; [reflexivity|].
    now rewrite Hhd.
Qed.

(** The reader over an accepted response whose lines are all UTF-8,
    whose payloads decode or fail with [JSONDecodeError], and whose
    stream ends cleanly: the decoded payloads in order, one warning per
    payload that does not decode, nothing for other lines. *)
Lemma agent_run_sse_decoded (E : AppLocal.env) (app_name user_id : str)
  (session_id : value) (query : str) (r : response) (decoded : list str) :
  AppLocal.send E (run_sse_request E app_name user_id session_id query)
    = Responded r ->
  error_status (status_code r) = false ->
  iter_error r = None ->
  map decode_utf8 (iter_lines r) = map Some decoded ->
  forallb (payload_handled E) decoded = true ->
  AppLocal.agent_run_sse E app_name user_id session_id query
  = (flat_map (sse_line_steps E) decoded, Ok tt).
Proof.
  intros Hsend Hst Herr Hdec Hh.
  unfold AppLocal.agent_run_sse. unfold run_sse_request in Hsend.
  rewrite Hsend.
  assert (Hok : raise_for_status r = Ok tt).
  { pose proof (ok_spec r) as Hk. rewrite Hst in Hk. unfold ok in Hk.
    destruct (raise_for_status r) as [[]|]; [reflexivity|discriminate]. }
  rewrite Hok, (sse_lines_decoded E _ _ _ Hdec Hh), Herr. reflexivity.
Qed.

(** The example of the specification: two events and one warning. *)
Lemma agent_run_sse_example :
  AppLocal.agent_run_sse
    (local_env (answers (stream_response 200 example_stream None)))
    (py "greeting_agent") (py "test_user") (VStr (py "s1")) (py "hello")
  = ([GYield (text_event "A");
      GShow (UWarning (py "Could not decode JSON from stream: data: not-json"));
      GYield (text_event "B")],
     Ok tt).
Proof.
  apply (agent_run_sse_decoded
           (local_env (answers (stream_response 200 example_stream None)))
           (py "greeting_agent") (py "test_user") (VStr (py "s1")) (py "hello")
           (stream_response 200 example_stream None)
           [pyq "data: {'content':{'parts':[{'text':'A'}]}}"; [];
            py "data: not-json"; [];
            pyq "data: {'content':{'parts':[{'text':'B'}]}}"]);
    reflexivity.
Defined.

(** C5.  The claim has the reader skip every line that is no payload
    and go on after a payload that does not decode, for every sequence
    of lines.  Evaluated on the code: with one line that is not UTF-8
    between the two events, the reader yields the first event and then
    raises [UnicodeDecodeError]; the second event is never yielded and
    no diagnostic is shown. *)
Theorem C5_agent_run_sse_stops_at_bad_bytes :
  AppLocal.agent_run_sse
    (local_env (answers (stream_response 200 stream_with_bad_bytes None)))
    (py "greeting_agent") (py "test_user") (VStr (py "s1")) (py "hello")
  = ([GYield (text_event "A")],
     Raise (mk_exn UnicodeDecodeError (py "'utf-8' codec can't decode byte"))).
Proof.
  unfold AppLocal.agent_run_sse.
  change (AppLocal.send _ _)
    with (Responded (stream_response 200 stream_with_bad_bytes None)).
  cbv beta iota.
  replace (raise_for_status (stream_response 200 stream_with_bad_bytes None))
    with (@Ok unit tt) by reflexivity.
  reflexivity.
Qed.

(* ================================================================== *)
(** ** The conversation history (C6) *)

Lemma with_shown_nil (w : world) : with_shown w [] = w.
Proof. destruct w. unfold with_shown. simpl. now rewrite app_nil_r. Qed.

Lemma with_shown_app (w : world) (a c : list ui) :
  with_shown (with_shown w a) c = with_shown w (a ++ c).
Proof. unfold with_shown. simpl. now rewrite app_assoc. Qed.

Section Reconstruction.

Variable text_of : value -> result str.
Hypothesis text_of_str : forall s, text_of (VStr s) = Ok s.

Lemma join_parts_text (parts : list value) :
  forallb text_ok parts = true ->
  forall acc,
    join_parts text_of parts acc = Ok (acc ++ List.concat (map part_text parts)).
Proof.
  induction parts as [|part parts IH]; intros Hok acc; simpl.
  - now rewrite app_nil_r.
  - simpl in Hok. apply andb_true_iff in Hok as [Hp Hps].
    destruct part as [| | | | |l|pd]; try (now rewrite IH).
    unfold text_ok in Hp. unfold part_text.
    destruct (dict_get (py "text") pd) as [[| | | |s| |]|];
      try discriminate Hp; simpl is_none; cbv iota.
    + now rewrite IH.
    + rewrite text_of_str, IH by assumption. now rewrite app_assoc.
    + now rewrite IH.
Qed.

Lemma show_event_message (event : value) (w : world) :
  well_formed event = true ->
  show_event text_of event w = (Ok tt, with_shown w (message_of event)).
Proof.
  intros Hwf.
  unfold show_event, message_of, well_formed, event_text, shown_role,
    event_role, event_author, event_content in *.
  destruct event as [| | | | | |ed]; try (now rewrite with_shown_nil).
  destruct (get (py "content") (VDict []) ed) as [| | | | | |cd];
    try (now rewrite with_shown_nil).
  destruct (get (py "parts") (VList []) cd) as [| | | | |ps|];
    try discriminate Hwf.
  unfold bind, lift. simpl iterate. cbv iota.
  rewrite (join_parts_text ps Hwf []), app_nil_l.
  destruct (nonempty (strip (List.concat (map part_text ps)))).
  - destruct (is_str (py "user") (get (py "role") (get (py "author") (VStr (py "unknown")) ed) cd)
              || is_str (py "user") (get (py "author") (VStr (py "unknown")) ed));
      reflexivity.
  - unfold ret. now rewrite with_shown_nil.
Qed.

Lemma for_each_show_event (events : list value) :
  forallb well_formed events = true ->
  forall w,
    for_each (show_event text_of) events w
    = (Ok tt, with_shown w (reconstruct events)).
Proof.
  induction events as [|event events IH]; intros Hwf w; simpl.
  - unfold ret. now rewrite with_shown_nil.
  - simpl in Hwf. apply andb_true_iff in Hwf as [He Hes].
    unfold bind. rewrite (show_event_message event w He).
    rewrite (IH Hes). now rewrite with_shown_app.
Qed.

Lemma display_history_shown (no_history : str)
  (session_details : list (str * value)) (events : list value) (w : world) :
  get (py "events") (VList []) session_details = VList events ->
  forallb well_formed events = true ->
  display_history text_of no_history session_details w
  = (Ok tt, with_shown w (history_shown no_history events)).
Proof.
  intros Hev Hwf. unfold display_history. rewrite Hev.
  destruct events as [|event events]; [reflexivity|].
  unfold truthy, negb, bind, lift, iterate.
  now rewrite (for_each_show_event (event :: events) Hwf).
Qed.

End Reconstruction.

(** C6, as stated, fails: the claim gives a message the declared role
    of its event before the author, yet an event whose author is "user"
    and whose content declares the role "model" is shown as a "user"
    message. *)
Lemma C6_author_user_overrides_declared_role :
  screen (snd (AppLocal.display_conversation_history
                 [(py "events", VList [user_event_declared_model])] fresh))
  <> reconstruct_as_claimed [user_event_declared_model].
Proof.
  vm_compute. discriminate.
Qed.

(** C6, amended.  In both programs, for every session whose events are
    of the data model (parts form a list, a text is a string or null),
    the history shows, in the order of the events, one message per
    event whose concatenated text is not blank; the text is the
    concatenation of the [text] of every part, parts without one or
    with a null one being skipped; the message is shown under "user"
    when the role (the declared role, else the author, else "unknown")
    or the author is "user", and under "assistant" otherwise.  A
    session without events shows a note instead. *)
Theorem C6_display_conversation_history (G : AppAgentEngine.env)
  (session_details : list (str * value)) (events : list value) (w : world) :
  get (py "events") (VList []) session_details = VList events ->
  forallb well_formed events = true ->
  AppLocal.display_conversation_history session_details w
  = (Ok tt,
     with_shown w
       (history_shown
          (py "No conversation history yet. Start by sending a message!") events))
  /\ AppAgentEngine.display_conversation_history G session_details w
     = (Ok tt,
        with_shown w
          (history_shown
             (py "Nessuna conversazione al momento. Invia un messaggio per iniziare!")
             events)).
Proof.
  intros Hev Hwf. split.
  - apply display_history_shown; [reflexivity | assumption | assumption].
  - apply display_history_shown; [reflexivity | assumption | assumption].
Qed.

(** The example of the specification: the empty text of the agent is
    dropped and one "user" message with the text "hi" remains. *)
Lemma C6_display_conversation_history_example :
  AppLocal.display_conversation_history
    [(py "events", VList example_events)] fresh
  = (Ok tt, with_shown fresh [UChat (py "user") (VStr (py "hi"))])
  /\ AppAgentEngine.display_conversation_history unreachable_engine
       [(py "events", VList example_events)] fresh
     = (Ok tt, with_shown fresh [UChat (py "user") (VStr (py "hi"))]).
Proof.
  apply (C6_display_conversation_history unreachable_engine
           [(py "events", VList example_events)] example_events fresh);
    reflexivity.
Defined.

(* ================================================================== *)
(** ** Failures of the transport (C7) *)


Lemma refused_status (r : response) (e : exn) :
  raise_for_status r = Raise e -> is_RequestException e = true.
Proof.
  unfold raise_for_status.
  destruct ((400 <=? status_code r) && (status_code r <? 500))%Z;
    [now intros [= <-]|].
  destruct ((500 <=? status_code r) && (status_code r <? 600))%Z;
    [now intros [= <-]|discriminate].
Qed.





(** A stream of the local service that breaks after some lines, all
    of them UTF-8 with payloads that decode or fail with
    [JSONDecodeError]: what the lines hold is delivered, then the error
    is shown and the generator returns. *)
Lemma agent_run_sse_interrupted (E : AppLocal.env) (app_name user_id : str)
  (session_id : value) (query : str) (r : response) (decoded : list str)
  (e : exn) :
  AppLocal.send E (run_sse_request E app_name user_id session_id query)
    = Responded r ->
  error_status (status_code r) = false ->
  iter_error r = Some e ->
  is_RequestException e = true ->
  map decode_utf8 (iter_lines r) = map Some decoded ->
  forallb (payload_handled E) decoded = true ->
  AppLocal.agent_run_sse E app_name user_id session_id query
  = (flat_map (sse_line_steps E) decoded ++ [AppLocal.sse_error e], Ok tt).
Proof.
  intros Hsend Hst Herr He Hdec Hh.
  unfold AppLocal.agent_run_sse. unfold run_sse_request in Hsend.
  rewrite Hsend.
  assert (Hok : raise_for_status r = Ok tt).
  { pose proof (ok_spec r) as Hk. rewrite Hst in Hk. unfold ok in Hk.
    destruct (raise_for_status r) as [[]|]; [reflexivity|discriminate]. }
  rewrite Hok, (sse_lines_decoded E _ _ _ Hdec Hh), Herr, He. reflexivity.
Qed.




(* ================================================================== *)
(** ** Displayed responses (C8) *)

(** C8.  The claim has a streamed response displayed only when its
    text is not blank.  Evaluated on [main] of the local program: an
    event whose text is three spaces is appended to the responses and
    written as an assistant response, since the loop appends whatever
    [part['text']] holds ([send_message_to_agent] of the other program
    does test [str(text).strip()]). *)
Theorem C8_local_main_shows_blank_response :
  AppLocal.main_chat_input
    (local_env (answers (stream_response 200 blank_stream None)))
    (py "test_user") (py "hello") chatting
  = (Raise (mk_exn RerunException []),
     with_shown chatting
       [UChat (py "user") (VStr (py "hello"));
        UChat (py "assistant") (VStr (py "   "))])
  /\ nonblank (py "   ") = false.
Proof.
  split; reflexivity.
Qed.

(** In the engine adapter the invariant holds: whatever the stream
    delivers, every response [send_message_to_agent] returns has a text
    that is not blank. *)
Lemma engine_append_texts_nonblank (G : AppAgentEngine.env) (parts : list value) :
  forall responses,
    forallb nonblank responses = true ->
    forallb nonblank (AppAgentEngine.append_texts G parts responses) = true.
Proof.
  induction parts as [|part parts IH]; intros responses H; simpl; [exact H|].
  destruct part as [| | | | | |pd]; try (now apply IH).
  destruct (dict_get (py "text") pd) as [text|]; [|now apply IH].
  destruct (truthy text && nonempty (strip (AppAgentEngine.to_str G text)))
    eqn:Hkeep; [|now apply IH].
  apply IH. rewrite forallb_app, H. simpl.
  apply andb_true_iff in Hkeep as [_ Hkeep].
  unfold nonblank. now rewrite Hkeep.
Qed.

Lemma engine_for_steps_nonblank (G : AppAgentEngine.env) (events : list value) :
  forall (acc : list str) (w : world) (rs : list str) (w' : world),
    forallb nonblank acc = true ->
    for_steps (AppAgentEngine.collect_event G) (map GYield events) acc w
      = (Ok rs, w') ->
    forallb nonblank rs = true.
Proof.
  induction events as [|event events IH]; intros acc w rs w' Hacc H; simpl in H.
  - now injection H as <- _.
  - unfold bind in H.
    destruct (AppAgentEngine.collect_event G event acc w) as [[acc'|e] w1] eqn:Hc;
      [|discriminate].
    apply (IH acc' w1 rs w'); [|exact H].
    unfold AppAgentEngine.collect_event in Hc.
    destruct event as [| | | | | |ed]; try (now injection Hc as <- _).
    destruct (get (py "content") (VDict []) ed) as [| | | | | |cd];
      try (now injection Hc as <- _).
    unfold bind, lift in Hc.
    destruct (iterate (get (py "parts") (VList []) cd)); [|discriminate].
    injection Hc as <- _. now apply engine_append_texts_nonblank.
Qed.

Lemma engine_responses_nonblank (G : AppAgentEngine.env) (resource_id user_id : str)
  (session_id : value) (message : str) (w : world) :
  match fst (AppAgentEngine.send_message_to_agent G resource_id user_id session_id
               message w) with
  | Ok responses => forallb nonblank responses = true
  | Raise e => is_Exception e = false
  end.
Proof.
  unfold AppAgentEngine.send_message_to_agent, try_except, bind, lift.
  destruct (AppAgentEngine.agent_engines_get G resource_id) as [app|e].
  - unfold for_gen, bind.
    destruct (for_steps (AppAgentEngine.collect_event G)
                (fst (AppAgentEngine.query_generator
                        (AppAgentEngine.stream_query app user_id session_id message)))
                [] w) as [[rs|e] w1] eqn:Hs.
    + unfold lift.
      destruct (snd (AppAgentEngine.query_generator
                       (AppAgentEngine.stream_query app user_id session_id message)))
        as [[]|e]; simpl.
      * apply (engine_for_steps_nonblank G
                 (fst (AppAgentEngine.stream_query app user_id session_id message))
                 [] w rs w1); [reflexivity | exact Hs].
      * destruct (is_Exception e) eqn:He; simpl; [reflexivity | exact He].
    + destruct (is_Exception e) eqn:He; simpl; [reflexivity | exact He].
  - destruct (is_Exception e) eqn:He; simpl; [reflexivity | exact He].
Qed.

(* ================================================================== *)
(** ** Computations that only write on the screen *)

Lemma oblivious_ret {A} (a : A) : oblivious (ret a).
Proof. exists (Ok a), []. intros w. now rewrite with_shown_nil. Qed.

Lemma oblivious_raise {A} (e : exn) : oblivious (@raise A e).
Proof. exists (Raise e), []. intros w. now rewrite with_shown_nil. Qed.

Lemma oblivious_lift {A} (r : result A) : oblivious (lift r).
Proof. exists r, []. intros w. now rewrite with_shown_nil. Qed.

Lemma oblivious_show (u : ui) : oblivious (show u).
Proof. exists (Ok tt), [u]. reflexivity. Qed.

Lemma oblivious_bind {A B} (m : M A) (k : A -> M B) :
  oblivious m -> (forall a, oblivious (k a)) -> oblivious (bind m k).
Proof.
  intros (r & out & Hm) Hk. destruct r as [a|e].
  - destruct (Hk a) as (r' & out' & Hka).
    exists r', (out ++ out'). intros w. unfold bind.
    now rewrite Hm, Hka, with_shown_app.
  - exists (Raise e), out. intros w. unfold bind. now rewrite Hm.
Qed.

Lemma oblivious_try_except {A} (m : M A) (caught : exn -> bool)
  (handler : exn -> M A) :
  oblivious m -> (forall e, oblivious (handler e)) ->
  oblivious (try_except m caught handler).
Proof.
  intros (r & out & Hm) Hh. destruct r as [a|e].
  - exists (Ok a), out. intros w. unfold try_except. now rewrite Hm.
  - destruct (caught e) eqn:Hc.
    + destruct (Hh e) as (r' & out' & Hhe).
      exists r', (out ++ out'). intros w. unfold try_except.
      now rewrite Hm, Hc, Hhe, with_shown_app.
    + exists (Raise e), out. intros w. unfold try_except. now rewrite Hm, Hc.
Qed.

Lemma oblivious_for_each {A} (body : A -> M unit) (l : list A) :
  (forall x, oblivious (body x)) -> oblivious (for_each body l).
Proof.
  intros Hb. induction l as [|x l IH]; simpl.
  - apply oblivious_ret.
  - apply oblivious_bind; [apply Hb | intros _; exact IH].
Qed.

Create HintDb oblivious.
#[local] Hint Resolve oblivious_ret oblivious_raise oblivious_lift oblivious_show
  : oblivious.

Ltac oblivious_step :=
  first
    [ apply oblivious_ret | apply oblivious_raise | apply oblivious_lift
    | apply oblivious_show
    | apply oblivious_bind; [|intros]
    | apply oblivious_try_except; [|intros]
    | apply oblivious_for_each; intros
    | match goal with
      | |- oblivious (match ?x with _ => _ end) => destruct x
      end ].

Ltac oblivious_auto := repeat oblivious_step; auto with oblivious.

Lemma oblivious_show_event (text_of : value -> result str) (event : value) :
  oblivious (show_event text_of event).
Proof.
  unfold show_event, chat_write. oblivious_auto.
Qed.

Lemma oblivious_display_history (text_of : value -> result str) (no_history : str)
  (session_details : list (str * value)) :
  oblivious (display_history text_of no_history session_details).
Proof.
  unfold display_history, st_info.
  destruct (negb (truthy (get (py "events") (VList []) session_details))).
  - apply oblivious_show.
  - apply oblivious_bind; [apply oblivious_lift|].
    intros events. apply oblivious_for_each. apply oblivious_show_event.
Qed.

Lemma oblivious_parse_json_or_empty (E : AppLocal.env) (r : response)
  (on_empty : value) :
  oblivious (AppLocal._parse_json_or_empty E r on_empty).
Proof.
  unfold AppLocal._parse_json_or_empty, AppLocal.json, st_error.
  oblivious_auto.
Qed.

Lemma oblivious_delete_call (p : program) (user_id session_id : str) :
  oblivious (delete_call p user_id session_id).
Proof.
  destruct p as [E|G]; simpl.
  - unfold AppLocal.delete_session, AppLocal.call, st_error.
    apply oblivious_try_except; [|intros; oblivious_auto].
    apply oblivious_bind; [oblivious_auto|].
    intros resp.
    destruct (existsb (Z.eqb (status_code resp)) [200; 202; 204]%Z);
      [apply oblivious_ret|].
    apply oblivious_bind; [apply oblivious_parse_json_or_empty|].
    intros _. apply oblivious_ret.
  - unfold AppAgentEngine.delete_session_by_id, st_error. oblivious_auto.
Qed.

(* ================================================================== *)
(** ** The active session (C9) *)

(** C9.  In both programs, when the delete call for a listed session
    succeeds, the delete button leaves no session active if that
    session was the active one, and leaves the active session as it was
    otherwise. *)
Theorem C9_delete_clears_only_the_active_session (p : program)
  (user_id session_id : str) (w : world) :
  fst (delete_call p user_id session_id w) = Ok true ->
  let w' := snd (delete_button p user_id session_id w) in
  (active w = VStr session_id -> active w' = VNone)
  /\ (active w <> VStr session_id -> active w' = active w).
Proof.
  intros Hdel w'.
  destruct (oblivious_delete_call p user_id session_id) as (r & out & Hrun).
  rewrite Hrun in Hdel. simpl in Hdel. subst r.
  assert (Hw' : active w'
                = if is_str session_id (active w) then VNone else active w).
  { subst w'. unfold active.
    destruct p as [E|G]; simpl delete_button; simpl delete_call in Hrun;
      unfold AppLocal.main_delete_button, AppAgentEngine.main_delete_button,
        bind; rewrite Hrun; simpl;
      destruct (is_str session_id (Streamlit.session_id (state w))); reflexivity. }
  rewrite Hw'. split.
  - intros Hact. apply is_str_eq in Hact. now rewrite Hact.
  - intros Hact. destruct (is_str session_id (active w)) eqn:Hs; [|reflexivity].
    apply is_str_eq in Hs. contradiction.
Qed.

(** With the session [s1] active and a service that answers 204:
    deleting [s1] leaves no session active, deleting [s2] leaves [s1]
    active. *)
Lemma C9_delete_clears_only_the_active_session_witness :
  active (snd (delete_button
                 (Local (local_env (answers (ascii_response 204 [] ""))))
                 (py "test_user") (py "s1") chatting))
  = VNone
  /\ active (snd (delete_button
                    (Local (local_env (answers (ascii_response 204 [] ""))))
                    (py "test_user") (py "s2") chatting))
     = active chatting.
Proof.
  split.
  - apply (proj1 (C9_delete_clears_only_the_active_session
                    (Local (local_env (answers (ascii_response 204 [] ""))))
                    (py "test_user") (py "s1") chatting eq_refl)).
    reflexivity.
  - apply (proj2 (C9_delete_clears_only_the_active_session
                    (Local (local_env (answers (ascii_response 204 [] ""))))
                    (py "test_user") (py "s2") chatting eq_refl)).
    discriminate.
Defined.

(* ================================================================== *)
(** ** Re-running the reconstruction (C10) *)

(** C10.  In both programs, what the conversation history shows and
    how it ends are determined by the session details alone: they are
    the same in every world, so the same on every run over the same
    events; the run only adds to the screen and leaves the session
    state as it was. *)
Theorem C10_display_depends_on_the_events_only (G : AppAgentEngine.env)
  (session_details : list (str * value)) :
  (exists (r : result unit) (out : list ui),
     forall w,
       AppLocal.display_conversation_history session_details w
       = (r, with_shown w out))
  /\ (exists (r : result unit) (out : list ui),
        forall w,
          AppAgentEngine.display_conversation_history G session_details w
          = (r, with_shown w out)).
Proof.
  split.
  - apply (oblivious_display_history AppLocal.text_of).
  - apply (oblivious_display_history (AppAgentEngine.text_of G)).
Qed.

(** Run twice in a row, the history is shown twice, identically, and
    the session state is still the one before the first run. *)
Lemma display_twice (session_details : list (str * value)) (w : world) :
  exists (r : result unit) (out : list ui),
    AppLocal.display_conversation_history session_details w
    = (r, with_shown w out)
    /\ AppLocal.display_conversation_history session_details (with_shown w out)
       = (r, with_shown w (out ++ out)).
Proof.
  destruct (oblivious_display_history AppLocal.text_of
              (py "No conversation history yet. Start by sending a message!")
              session_details) as (r & out & H).
  exists r, out. split; [apply H|].
  unfold AppLocal.display_conversation_history.
  now rewrite H, with_shown_app.
Qed.

(** A stream that breaks after its first event. *)
Lemma agent_run_sse_interrupted_example :
  AppLocal.agent_run_sse
    (local_env
       (answers
          (stream_response 200
             [bq "data: {'content':{'parts':[{'text':'A'}]}}"]
             (Some (mk_exn ChunkedEncodingError (py "Connection broken"))))))
    (py "greeting_agent") (py "test_user") (VStr (py "s1")) (py "hello")
  = ([GYield (text_event "A");
      GShow (UError (py "Error during agent run SSE: Connection broken"))],
     Ok tt).
Proof.
  apply (agent_run_sse_interrupted
           (local_env
              (answers
                 (stream_response 200
                    [bq "data: {'content':{'parts':[{'text':'A'}]}}"]
                    (Some (mk_exn ChunkedEncodingError (py "Connection broken"))))))
           (py "greeting_agent") (py "test_user") (VStr (py "s1")) (py "hello")
           (stream_response 200
              [bq "data: {'content':{'parts':[{'text':'A'}]}}"]
              (Some (mk_exn ChunkedEncodingError (py "Connection broken"))))
           [pyq "data: {'content':{'parts':[{'text':'A'}]}}"]
           (mk_exn ChunkedEncodingError (py "Connection broken")));
    reflexivity.
Defined.

(* ================================================================== *)
(** ** The other transitions of the active session *)

Lemma oblivious_create_call (p : program) (user_id : str) :
  oblivious (create_call p user_id).
Proof.
  destruct p as [E|G]; simpl.
  - unfold AppLocal.create_session, AppLocal.call, st_error, st_warning.
    apply oblivious_try_except; [|intros; oblivious_auto].
    apply oblivious_bind; [oblivious_auto|]. intros resp.
    apply oblivious_bind; [oblivious_auto|]. intros _.
    apply oblivious_bind; [apply oblivious_parse_json_or_empty|]. intros data.
    oblivious_auto.
  - unfold AppAgentEngine.create_new_session, st_error. oblivious_auto.
Qed.

(** Selecting a listed session makes it the active one. *)
Lemma select_button_activates (p : program) (session_id : str) (w : world) :
  active (snd (select_button p session_id w)) = VStr session_id.
Proof.
  destruct p; reflexivity.
Qed.

(** The state the create button leaves. *)
Lemma create_button_state (p : program) (user_id : str) (w : world)
  (new_session_id : value) :
  fst (create_call p user_id w) = Ok new_session_id ->
  let w' := snd (create_button p user_id w) in
  if truthy new_session_id
  then active w' = new_session_id /\ refresh_sessions (state w') = true
  else state w' = state w.
Proof.
  intros Hcall w'.
  destruct (oblivious_create_call p user_id) as (r & out & Hrun).
  rewrite Hrun in Hcall. simpl in Hcall. subst r. subst w'.
  destruct p as [E|G]; simpl create_button; simpl create_call in Hrun;
    unfold AppLocal.main_create_button, AppAgentEngine.main_create_button, bind;
    rewrite Hrun; destruct (truthy new_session_id); simpl; auto.
Qed.

(** A create call that returns an id makes that id the active session
    and asks for the session list to be fetched again; one that returns
    no id changes neither. *)
Lemma create_button_activates (p : program) (user_id : str) (w : world)
  (new_session_id : value) :
  fst (create_call p user_id w) = Ok new_session_id ->
  let w' := snd (create_button p user_id w) in
  if truthy new_session_id
  then active w' = new_session_id /\ refresh_sessions (state w') = true
  else state w' = state w.
Proof.
  exact (create_button_state p user_id w new_session_id).
Qed.

(** A service that answers the create request with the id [s7]. *)
Lemma create_button_activates_example :
  active (snd (create_button
                 (Local (local_env (answers (json_response 200 "{'id': 's7'}"))))
                 (py "test_user") fresh))
  = VStr (py "s7")
  /\ refresh_sessions
       (state (snd (create_button
                      (Local (local_env (answers (json_response 200 "{'id': 's7'}"))))
                      (py "test_user") fresh)))
     = true.
Proof.
  apply (create_button_activates
           (Local (local_env (answers (json_response 200 "{'id': 's7'}"))))
           (py "test_user") fresh (VStr (py "s7")) eq_refl).
Defined.

(* ================================================================== *)
(** ** What the listing and the lookup of sessions return *)


(** An object body whose [sessions] member is a string: the local
    listing returns the string. *)
Lemma list_sessions_result_example :
  fst (AppLocal.list_sessions
         (local_env (answers (json_response 200 "{'sessions': 'none yet'}")))
         (py "greeting_agent") (py "test_user") fresh)
  = Ok (VStr (py "none yet")).
Proof. reflexivity. Qed.

(** The shape of what the lookup returns. *)
Lemma get_session_shape (p : program) (user_id : str) (session_id : value)
  (w : world) :
  match fst (get_call p user_id session_id w) with
  | Ok v => v = VNone \/ is_dict v = true
  | Raise e => let_through p e = true
  end.
Proof.
  destruct p as [E|G]; simpl.
  - unfold AppLocal.get_session, try_except, bind, AppLocal.call.
    destruct (AppLocal.send E _) as [e|r].
    + unfold raise. destruct (is_RequestException e) eqn:He; simpl; rewrite ?He; auto.
    + unfold ret at 1, lift.
      destruct (raise_for_status r) as [[]|e] eqn:Hst.
      * destruct (AppLocal._parse_json_or_empty E r VNone w) as [[v|e] w'].
        -- destruct v; simpl; auto.
        -- destruct (is_RequestException e) eqn:He; simpl; rewrite ?He; auto.
      * rewrite (refused_status r e Hst). simpl. auto.
  - unfold AppAgentEngine.get_session_details, try_except, bind, lift.
    destruct (AppAgentEngine.agent_engines_get G (AppAgentEngine.RESOURCE_ID G))
      as [app|e].
    + destruct (AppAgentEngine.get_session app user_id session_id) as [v|e].
      * destruct v; simpl; auto.
      * destruct (is_Exception e) eqn:He; simpl; rewrite ?He; auto.
    + destruct (is_Exception e) eqn:He; simpl; rewrite ?He; auto.
Qed.

(** In both programs the lookup of a session returns a dictionary or
    [None], whatever the backend answers; the only exceptions let
    through are those the handler does not name. *)
Lemma get_session_result (p : program) (user_id : str) (session_id : value)
  (w : world) :
  match fst (get_call p user_id session_id w) with
  | Ok v => v = VNone \/ is_dict v = true
  | Raise e => let_through p e = true
  end.
Proof.
  exact (get_session_shape p user_id session_id w).
Qed.

(* ================================================================== *)
(** ** Timestamps written as text *)

Lemma replace1_app (a : N) (r x y : str) :
  replace1 a r (x ++ y) = replace1 a r x ++ replace1 a r y.
Proof. unfold replace1. apply flat_map_app. Qed.

(** Replacing again changes nothing once the replacement holds no
    occurrence of the character. *)
Lemma replace1_idempotent (a : N) (r s : str) :
  replace1 a r r = r ->
  replace1 a r (replace1 a r s) = replace1 a r s.
Proof.
  intros Hr. induction s as [|c s IH]; [reflexivity|].
  change (c :: s) with ([c] ++ s).
  rewrite !replace1_app, IH. f_equal.
  unfold replace1 at 2. simpl. rewrite app_nil_r.
  destruct (c =? a)%N eqn:Hc; [exact Hr|].
  unfold replace1. simpl. now rewrite Hc.
Qed.

(** In both programs a timestamp given as text is shown as the same
    text with every [Z] written [+00:00] is; in particular a text that
    ends in [Z] is shown as the one that ends in [+00:00]. *)
Lemma format_timestamp_zulu (L : AppLocal.env) (G : AppAgentEngine.env) (s : str) :
  (AppLocal._format_timestamp L (VStr s)
   = AppLocal._format_timestamp L (VStr (replace1 90 (py "+00:00") s))
   /\ AppAgentEngine._format_timestamp G (VStr s)
      = AppAgentEngine._format_timestamp G (VStr (replace1 90 (py "+00:00") s)))
  /\ (AppLocal._format_timestamp L (VStr (s ++ py "Z"))
      = AppLocal._format_timestamp L (VStr (s ++ py "+00:00"))
      /\ AppAgentEngine._format_timestamp G (VStr (s ++ py "Z"))
         = AppAgentEngine._format_timestamp G (VStr (s ++ py "+00:00"))).
Proof.
  assert (Hi : forall x, replace1 90 (py "+00:00") (replace1 90 (py "+00:00") x)
                         = replace1 90 (py "+00:00") x)
    by (intros x; now apply replace1_idempotent).
  assert (Hz : forall x, replace1 90 (py "+00:00") (x ++ py "Z")
                         = replace1 90 (py "+00:00") (x ++ py "+00:00"))
    by (intros x; now rewrite !replace1_app).
  unfold AppLocal._format_timestamp, AppAgentEngine._format_timestamp,
    format_timestamp. simpl number_of. cbv iota.
  rewrite Hi, Hz. repeat split; reflexivity.
Qed.

(* ================================================================== *)
(** ** The stream reader on a line it does not get over *)

Lemma line_failure_stops (E : AppLocal.env) (tail : option exn) (bad : bytes)
  (rest : list bytes) (e : exn) :
  line_failure E bad = Some e ->
  AppLocal.sse_lines E (bad :: rest) tail = ([], Raise e).
Proof.
  intros Hbad. destruct bad as [|c bad]; [discriminate Hbad|].
  cbn [AppLocal.sse_lines]. unfold line_failure in Hbad.
  destruct (decode_utf8 (c :: bad)) as [d|]; [|now injection Hbad as <-].
  destruct (startswith (py "data: ") d); [|discriminate Hbad].
  destruct (AppLocal.sse_lines E rest tail) as [steps fin].
  destruct (AppLocal.loads E (skipn 6 d)) as [v|e0]; [discriminate Hbad|].
  destruct (is_JSONDecodeError e0); [discriminate Hbad|].
  now injection Hbad as <-.
Qed.

Lemma sse_lines_stop (E : AppLocal.env) (tail : option exn) (bad : bytes)
  (rest : list bytes) (e : exn) :
  line_failure E bad = Some e ->
  forall (good : list bytes) (decoded : list str),
    map decode_utf8 good = map Some decoded ->
    forallb (payload_handled E) decoded = true ->
    AppLocal.sse_lines E (good ++ bad :: rest) tail
    = (flat_map (sse_line_steps E) decoded, Raise e).
Proof.
  intros Hbad.
  induction good as [|line good IH]; intros [|d decoded] H Hh;
    try discriminate H.
  - simpl app. simpl flat_map. now apply line_failure_stops.
  - simpl in H. injection H as Hd Hrest.
    simpl in Hh. apply andb_true_iff in Hh as [Hhd Hhrest].
    specialize (IH _ Hrest Hhrest).
    simpl flat_map. simpl app. destruct line as [|c line].
    + cbn [AppLocal.sse_lines]. rewrite IH. injection Hd as <-. reflexivity.
    + cbn [AppLocal.sse_lines]. rewrite Hd, IH.
      unfold sse_line_steps. unfold payload_handled in Hhd.
      destruct (startswith (py "data: ") d); [|reflexivity].
      destruct (AppLocal.loads E (skipn 6 d)) as [v|e0]; [reflexivity|].
      now rewrite Hhd.
Qed.

(** Whatever follows it, the first line the reader does not get over
    ends the stream of an accepted response: a line that is not UTF-8
    with [UnicodeDecodeError], a payload on which the JSON decoder
    raises something else than [JSONDecodeError] with that exception.
    What the lines before it hold has been delivered and nothing of the
    lines after it is.  The exception reaches the consumer and the
    generator shows no error of its own, unless the JSON decoder raised
    a [RequestException], which is shown instead. *)
Lemma agent_run_sse_stops (E : AppLocal.env) (app_name user_id : str)
  (session_id : value) (query : str) (r : response)
  (good : list bytes) (decoded : list str) (bad : bytes) (rest : list bytes)
  (e : exn) :
  AppLocal.send E (run_sse_request E app_name user_id session_id query)
    = Responded r ->
  error_status (status_code r) = false ->
  iter_lines r = good ++ bad :: rest ->
  map decode_utf8 good = map Some decoded ->
  forallb (payload_handled E) decoded = true ->
  line_failure E bad = Some e ->
  AppLocal.agent_run_sse E app_name user_id session_id query
  = if is_RequestException e
    then (flat_map (sse_line_steps E) decoded ++ [AppLocal.sse_error e], Ok tt)
    else (flat_map (sse_line_steps E) decoded, Raise e).
Proof.
  intros Hsend Hst Hlines Hdec Hh Hbad.
  unfold AppLocal.agent_run_sse. unfold run_sse_request in Hsend.
  rewrite Hsend.
  assert (Hok : raise_for_status r = Ok tt).
  { pose proof (ok_spec r) as Hk. rewrite Hst in Hk. unfold ok in Hk.
    destruct (raise_for_status r) as [[]|]; [reflexivity|discriminate]. }
  rewrite Hok, Hlines,
    (sse_lines_stop E (iter_error r) bad rest e Hbad good decoded Hdec Hh).
  reflexivity.
Qed.

(** A truncated three-byte character after one event; and, after one
    event, a payload that is an integer of five thousand digits, on
    which the JSON decoder raises a plain [ValueError]. *)
Lemma agent_run_sse_stops_example :
  AppLocal.agent_run_sse
    (local_env
       (answers
          (stream_response 200
             [bq "data: {'content':{'parts':[{'text':'A'}]}}";
              [xe2; x82]; bq "data: {}"]
             None)))
    (py "greeting_agent") (py "test_user") (VStr (py "s1")) (py "hello")
  = ([GYield (text_event "A")],
     Raise (mk_exn UnicodeDecodeError (py "'utf-8' codec can't decode byte")))
  /\ AppLocal.agent_run_sse
       (local_env
          (answers
             (stream_response 200
                [bq "data: {'content':{'parts':[{'text':'A'}]}}";
                 long_integer_line; bq "data: {}"]
                None)))
       (py "greeting_agent") (py "test_user") (VStr (py "s1")) (py "hello")
     = ([GYield (text_event "A")], Raise (too_many_digits 4300 5000)).
Proof.
  split.
  - apply (agent_run_sse_stops
             (local_env
                (answers
                   (stream_response 200
                      [bq "data: {'content':{'parts':[{'text':'A'}]}}";
                       [xe2; x82]; bq "data: {}"]
                      None)))
             (py "greeting_agent") (py "test_user") (VStr (py "s1")) (py "hello")
             (stream_response 200
                [bq "data: {'content':{'parts':[{'text':'A'}]}}";
                 [xe2; x82]; bq "data: {}"]
                None)
             [bq "data: {'content':{'parts':[{'text':'A'}]}}"]
             [pyq "data: {'content':{'parts':[{'text':'A'}]}}"]
             [xe2; x82] [bq "data: {}"]
             (mk_exn UnicodeDecodeError (py "'utf-8' codec can't decode byte")));
      reflexivity.
  - apply (agent_run_sse_stops
             (local_env
                (answers
                   (stream_response 200
                      [bq "data: {'content':{'parts':[{'text':'A'}]}}";
                       long_integer_line; bq "data: {}"]
                      None)))
             (py "greeting_agent") (py "test_user") (VStr (py "s1")) (py "hello")
             (stream_response 200
                [bq "data: {'content':{'parts':[{'text':'A'}]}}";
                 long_integer_line; bq "data: {}"]
                None)
             [bq "data: {'content':{'parts':[{'text':'A'}]}}"]
             [pyq "data: {'content':{'parts':[{'text':'A'}]}}"]
             long_integer_line [bq "data: {}"]
             (too_many_digits 4300 5000));
      reflexivity.
Defined.

(* ================================================================== *)
(** ** A chat turn of the local [main] *)

Lemma for_each_chat_write (role : str) (bodies : list value) (w : world) :
  for_each (chat_write role) bodies w
  = (Ok tt, with_shown w (map (UChat role) bodies)).
Proof.
  revert w. induction bodies as [|x bodies IH]; intros w; simpl.
  - unfold ret. now rewrite with_shown_nil.
  - unfold bind, chat_write, show. rewrite IH.
    unfold with_shown. simpl. now rewrite <- app_assoc.
Qed.

Lemma collect_parts_texts (parts : list value) :
  forallb is_dict parts = true ->
  forall (responses : list value) (w : world),
    AppLocal.collect_parts parts responses w
    = (Ok (responses ++ flat_map part_texts parts), w).
Proof.
  induction parts as [|part parts IH]; intros Hok responses w; simpl.
  - unfold ret. now rewrite app_nil_r.
  - simpl in Hok. apply andb_true_iff in Hok as [Hp Hps].
    destruct part as [| | | | | |pd]; try discriminate Hp.
    unfold bind, lift, py_in, has_key, getitem, part_texts.
    destruct (dict_get (py "text") pd) as [t|].
    + rewrite (IH Hps). simpl. now rewrite <- app_assoc.
    + now rewrite (IH Hps).
Qed.

Lemma collect_event_texts (event : value) (responses : list value) (w : world) :
  stream_event_ok event = true ->
  AppLocal.collect_event event responses w
  = (Ok (responses ++ stream_texts event), w).
Proof.
  intros Hok. unfold AppLocal.collect_event.
  destruct event as [| | | | | |ed]; try discriminate Hok.
  unfold stream_event_ok in Hok. unfold stream_texts.
  destruct ed as [|kv ed'] eqn:Hed.
  - simpl. unfold ret. now rewrite app_nil_r.
  - rewrite <- Hed in *. replace (truthy (VDict ed)) with true by now subst ed.
    unfold bind, lift, py_in, has_key, getitem.
    destruct (dict_get (py "content") ed) as [content|];
      [|unfold ret; now rewrite app_nil_r].
    destruct content as [| | | | | |cd]; try discriminate Hok.
    destruct (dict_get (py "parts") cd) as [parts|];
      [|unfold ret; now rewrite app_nil_r].
    destruct parts as [| | | | |ps|]; try discriminate Hok.
    simpl iterate. cbv iota. now apply collect_parts_texts.
Qed.

Lemma for_steps_collect (steps : list gen_step) (fin : result unit) :
  forallb stream_event_ok (yields (steps, fin)) = true ->
  forall (responses : list value) (w : world),
    for_steps AppLocal.collect_event steps responses w
    = (Ok (responses ++ flat_map stream_texts (yields (steps, fin))),
       with_shown w (shown (steps, fin))).
Proof.
  unfold yields, shown. simpl fst.
  induction steps as [|step steps IH]; intros Hok responses w; simpl.
  - unfold ret. now rewrite app_nil_r, with_shown_nil.
  - destruct step as [v|u]; simpl in Hok |- *.
    + apply andb_true_iff in Hok as [Hv Hrest].
      unfold bind. rewrite (collect_event_texts v responses w Hv).
      rewrite (IH Hrest). now rewrite <- app_assoc.
    + unfold bind, show. rewrite (IH Hok).
      unfold with_shown. simpl. now rewrite <- app_assoc.
Qed.

(** A chat turn whose stream ends cleanly and delivers events of the
    expected shape: [main] shows the user's message, then the warnings
    of the reader, then every [text] of every part in the order of
    arrival, whatever it holds, each as an assistant response, or the
    error that nothing was received when there is none; then it asks
    for a rerun and leaves the session state as it was. *)
Lemma local_chat_turn (E : AppLocal.env) (user_id user_message : str) (w : world) :
  let g := AppLocal.agent_run_sse E (AppLocal.APP_NAME E) user_id (active w)
             user_message in
  snd g = Ok tt ->
  forallb stream_event_ok (yields g) = true ->
  AppLocal.main_chat_input E user_id user_message w
  = (Raise rerun,
     with_shown w
       (UChat (py "user") (VStr user_message)
          :: shown g ++ local_responses_shown (flat_map stream_texts (yields g)))).
Proof.
  intros g Hfin Hok.
  unfold AppLocal.main_chat_input, bind.
  unfold chat_write at 1. unfold show at 1. unfold get_state.
  simpl state. fold (active w). fold g.
  unfold for_gen, bind.
  destruct g as [steps fin] eqn:Hg. simpl in Hfin. subst fin. simpl fst. simpl snd.
  rewrite (for_steps_collect steps (Ok tt) Hok). unfold lift, ret.
  simpl app.
  destruct (flat_map stream_texts (yields (steps, Ok tt))) as [|t texts] eqn:Ht;
    unfold local_responses_shown.
  - unfold st_error, show, st_rerun, raise, with_shown. simpl.
    now rewrite <- !app_assoc.
  - cbn [app]. rewrite for_each_chat_write.
    unfold st_rerun, raise, with_shown. simpl.
    now rewrite <- !app_assoc.
Qed.

(** The stream of the specification's example, in a chat turn. *)
Lemma local_chat_turn_example :
  AppLocal.main_chat_input
    (local_env (answers (stream_response 200 example_stream None)))
    (py "test_user") (py "hello") chatting
  = (Raise rerun,
     with_shown chatting
       [UChat (py "user") (VStr (py "hello"));
        UWarning (py "Could not decode JSON from stream: data: not-json");
        UChat (py "assistant") (VStr (py "A"));
        UChat (py "assistant") (VStr (py "B"))]).
Proof.
  apply (local_chat_turn
           (local_env (answers (stream_response 200 example_stream None)))
           (py "test_user") (py "hello") chatting);
    reflexivity.
Defined.

Lemma for_steps_app {S} (body : value -> S -> M S) (pre post : list gen_step) :
  forall (acc : S) (w : world),
    for_steps body (pre ++ post) acc w
    = match for_steps body pre acc w with
      | (Ok acc', w') => for_steps body post acc' w'
      | (Raise e, w') => (Raise e, w')
      end.
Proof.
  induction pre as [|step pre IH]; intros acc w; simpl; [reflexivity|].
  destruct step as [v|u]; unfold bind.
  - destruct (body v acc w) as [[acc'|e] w']; [apply IH | reflexivity].
  - unfold show. apply IH.
Qed.

(** A streamed payload that is a number or [true] stops the chat turn
    of the local [main] with a [TypeError]: the test
    ['content' in event] needs a container.  The user's message and the
    warnings up to there have been shown; no response is, and no rerun
    is asked for. *)
Lemma local_chat_turn_scalar_event (E : AppLocal.env) (user_id user_message : str)
  (w : world) (pre : list gen_step) (event : value) (rest : list gen_step)
  (fin : result unit) :
  AppLocal.agent_run_sse E (AppLocal.APP_NAME E) user_id (active w) user_message
    = (pre ++ GYield event :: rest, fin) ->
  forallb stream_event_ok (yields (pre, fin)) = true ->
  is_scalar event = true ->
  truthy event = true ->
  AppLocal.main_chat_input E user_id user_message w
  = (Raise (type_error "argument is not iterable"),
     with_shown w (UChat (py "user") (VStr user_message) :: shown (pre, fin))).
Proof.
  intros Hg Hok Hsc Htr.
  unfold AppLocal.main_chat_input, bind.
  unfold chat_write at 1. unfold show at 1. unfold get_state.
  simpl state. fold (active w). rewrite Hg.
  unfold for_gen, bind. simpl fst.
  rewrite for_steps_app, (for_steps_collect pre fin Hok).
  simpl for_steps. unfold bind, AppLocal.collect_event. rewrite Htr.
  unfold lift.
  replace (py_in (py "content") event)
    with (@Raise bool (type_error "argument is not iterable"))
    by (destruct event; try discriminate Hsc; reflexivity).
  unfold with_shown. simpl. now rewrite <- !app_assoc.
Qed.

(** A stream whose second payload is the number 1. *)
Lemma local_chat_turn_scalar_event_example :
  AppLocal.main_chat_input
    (local_env
       (answers
          (stream_response 200
             [bq "data: {'content':{'parts':[{'text':'A'}]}}"; bq "data: 1"] None)))
    (py "test_user") (py "hello") chatting
  = (Raise (type_error "argument is not iterable"),
     with_shown chatting [UChat (py "user") (VStr (py "hello"))]).
Proof.
  apply (local_chat_turn_scalar_event
           (local_env
              (answers
                 (stream_response 200
                    [bq "data: {'content':{'parts':[{'text':'A'}]}}"; bq "data: 1"]
                    None)))
           (py "test_user") (py "hello") chatting
           [GYield (text_event "A")] (VInt 1) [] (Ok tt));
    reflexivity.
Defined.

(* ================================================================== *)
(** ** What [send_message_to_agent] returns *)

Lemma engine_append_texts_acc (G : AppAgentEngine.env) (parts : list value) :
  forall responses,
    AppAgentEngine.append_texts G parts responses
    = responses ++ flat_map (engine_part_texts G) parts.
Proof.
  induction parts as [|part parts IH]; intros responses; simpl.
  - now rewrite app_nil_r.
  - destruct part as [| | | | | |pd]; try apply IH.
    unfold engine_part_texts, nonblank.
    destruct (dict_get (py "text") pd) as [t|]; [|apply IH].
    destruct (truthy t && nonempty (strip (AppAgentEngine.to_str G t)));
      rewrite IH; [now rewrite <- app_assoc | reflexivity].
Qed.

Lemma engine_collect_event_texts (G : AppAgentEngine.env) (event : value)
  (responses : list str) (w : world) :
  engine_event_ok event = true ->
  AppAgentEngine.collect_event G event responses w
  = (Ok (responses ++ engine_event_texts G event), w).
Proof.
  unfold engine_event_ok, engine_event_texts, engine_parts,
    AppAgentEngine.collect_event.
  destruct event as [| | | | | |ed];
    try (intros _; unfold ret; now rewrite app_nil_r).
  destruct (get (py "content") (VDict []) ed) as [| | | | | |cd];
    try (intros _; unfold ret; now rewrite app_nil_r).
  unfold bind, lift.
  destruct (iterate (get (py "parts") (VList []) cd)) as [ps|e];
    [|discriminate].
  intros _. unfold ret. now rewrite engine_append_texts_acc.
Qed.

Lemma engine_for_steps_texts (G : AppAgentEngine.env) (events : list value) :
  forallb engine_event_ok events = true ->
  forall (responses : list str) (w : world),
    for_steps (AppAgentEngine.collect_event G) (map GYield events) responses w
    = (Ok (responses ++ flat_map (engine_event_texts G) events), w).
Proof.
  induction events as [|event events IH]; intros Hok responses w; simpl.
  - unfold ret. now rewrite app_nil_r.
  - simpl in Hok. apply andb_true_iff in Hok as [He Hes].
    unfold bind. rewrite (engine_collect_event_texts G event responses w He).
    rewrite (IH Hes). now rewrite <- app_assoc.
Qed.

(** When the engine is reached, the stream ends cleanly and the parts
    of every event can be iterated over, [send_message_to_agent]
    returns, in the order of arrival, the text of every part whose text
    is truthy and not blank, as a string, and shows nothing.  Events
    and contents that are no dictionaries are passed over. *)
Lemma engine_send_message (G : AppAgentEngine.env) (resource_id user_id : str)
  (session_id : value) (message : str) (w : world)
  (app : AppAgentEngine.remote_app) (events : list value) :
  AppAgentEngine.agent_engines_get G resource_id = Ok app ->
  AppAgentEngine.stream_query app user_id session_id message = (events, None) ->
  forallb engine_event_ok events = true ->
  AppAgentEngine.send_message_to_agent G resource_id user_id session_id message w
  = (Ok (flat_map (engine_event_texts G) events), w).
Proof.
  intros Hget Hq Hok.
  unfold AppAgentEngine.send_message_to_agent, try_except, bind, lift.
  rewrite Hget. unfold for_gen, bind, AppAgentEngine.query_generator.
  rewrite Hq. simpl fst. simpl snd.
  rewrite (engine_for_steps_texts G events Hok [] w).
  reflexivity.
Qed.

(** One event whose parts cannot be iterated over (a null, a number)
    costs the whole answer: the responses collected from the events
    before it are dropped, an empty list is returned and the
    [TypeError] is shown, its text naming the type of the parts. *)
Lemma engine_send_message_malformed (G : AppAgentEngine.env)
  (resource_id user_id : str) (session_id : value) (message : str) (w : world)
  (app : AppAgentEngine.remote_app) (good : list value) (bad : value)
  (rest : list value) (tail : option exn) (cd : list (str * value))
  (parts : value) :
  AppAgentEngine.agent_engines_get G resource_id = Ok app ->
  AppAgentEngine.stream_query app user_id session_id message
    = (good ++ bad :: rest, tail) ->
  forallb engine_event_ok good = true ->
  event_content bad = Some cd ->
  get (py "parts") (VList []) cd = parts ->
  iterable parts = false ->
  AppAgentEngine.send_message_to_agent G resource_id user_id session_id message w
  = (Ok [],
     with_shown w
       [UError (py "Errore durante l'invio del messaggio: '"
                  ++ type_name parts ++ py "' object is not iterable")]).
Proof.
  intros Hget Hq Hok Hcd Hparts Hbad.
  unfold AppAgentEngine.send_message_to_agent, try_except, bind, lift.
  rewrite Hget. unfold for_gen, bind, AppAgentEngine.query_generator.
  rewrite Hq. simpl fst. rewrite map_app. simpl map.
  rewrite for_steps_app, (engine_for_steps_texts G good Hok [] w).
  simpl for_steps. unfold bind.
  unfold event_content in Hcd.
  unfold AppAgentEngine.collect_event.
  destruct bad as [| | | | | |ed]; try discriminate Hcd.
  destruct (get (py "content") (VDict []) ed) as [| | | | | |cd'];
    try discriminate Hcd.
  injection Hcd as ->. rewrite Hparts.
  unfold bind, lift.
  destruct parts; try discriminate Hbad; reflexivity.
Qed.

(** A stream of three events: a text, a blank text and a bare string. *)
Lemma engine_send_message_example :
  AppAgentEngine.send_message_to_agent
    (scripted_engine [text_event "hi there"; text_event "  "; VStr (py "noise")] None)
    (py "engine") (py "test_user") (VStr (py "s1")) (py "hello") chatting
  = (Ok [py "hi there"], chatting).
Proof.
  apply (engine_send_message
           (scripted_engine
              [text_event "hi there"; text_event "  "; VStr (py "noise")] None)
           (py "engine") (py "test_user") (VStr (py "s1")) (py "hello") chatting
           (scripted_app
              [text_event "hi there"; text_event "  "; VStr (py "noise")] None)
           [text_event "hi there"; text_event "  "; VStr (py "noise")]);
    reflexivity.
Defined.

(** A text followed by an event whose parts are null. *)
Lemma engine_send_message_malformed_example :
  AppAgentEngine.send_message_to_agent
    (scripted_engine [text_event "hi there"; null_parts_event] None)
    (py "engine") (py "test_user") (VStr (py "s1")) (py "hello") chatting
  = (Ok [],
     with_shown chatting
       [UError (py "Errore durante l'invio del messaggio: 'NoneType' object is not iterable")]).
Proof.
  apply (engine_send_message_malformed
           (scripted_engine [text_event "hi there"; null_parts_event] None)
           (py "engine") (py "test_user") (VStr (py "s1")) (py "hello") chatting
           (scripted_app [text_event "hi there"; null_parts_event] None)
           [text_event "hi there"] null_parts_event [] None
           [(py "parts", VNone)] VNone);
    reflexivity.
Defined.

(* ================================================================== *)
(** ** Refreshing the session list, and the rest of the delete button *)

Lemma oblivious_list_call (p : program) (user_id : str) :
  oblivious (list_call p user_id).
Proof.
  destruct p as [E|G]; simpl.
  - unfold AppLocal.list_sessions, AppLocal.call, st_error.
    apply oblivious_try_except; [|intros; oblivious_auto].
    apply oblivious_bind; [oblivious_auto|]. intros resp.
    apply oblivious_bind; [oblivious_auto|]. intros _.
    apply oblivious_bind; [apply oblivious_parse_json_or_empty|]. intros data.
    oblivious_auto.
  - unfold AppAgentEngine.get_sessions_list, st_error. oblivious_auto.
Qed.

Lemma oblivious_get_call (p : program) (user_id : str) (session_id : value) :
  oblivious (get_call p user_id session_id).
Proof.
  destruct p as [E|G]; simpl.
  - unfold AppLocal.get_session, AppLocal.call, st_error.
    apply oblivious_try_except; [|intros; oblivious_auto].
    apply oblivious_bind; [oblivious_auto|]. intros resp.
    apply oblivious_bind; [oblivious_auto|]. intros _.
    apply oblivious_bind; [apply oblivious_parse_json_or_empty|]. intros data.
    oblivious_auto.
  - unfold AppAgentEngine.get_session_details, st_error. oblivious_auto.
Qed.

(** The two cases of the refresh step. *)
Lemma refresh_cases (p : program) (user_id : str) (refresh_clicked : bool)
  (w : world) :
  (refresh_sessions (state w) || refresh_clicked = false ->
   refresh p user_id refresh_clicked w = (Ok tt, w))
  /\ (refresh_sessions (state w) || refresh_clicked = true ->
      forall listed,
        fst (list_call p user_id w) = Ok listed ->
        exists out,
          refresh p user_id refresh_clicked w
          = (Ok tt,
             mk_world (mk_state (active w) listed false (user_name (state w)))
               (screen w ++ out))).
Proof.
  split.
  - intros Hoff. apply orb_false_iff in Hoff as [Hflag ->].
    destruct p as [E|G]; simpl refresh;
      unfold LocalMain.main_refresh, EngineMain.main_refresh, bind, ret, get_state;
      rewrite Hflag; reflexivity.
  - intros Hon listed Hlist.
    destruct (oblivious_list_call p user_id) as (r & out & Hrun).
    rewrite Hrun in Hlist. simpl in Hlist. subst r. exists out.
    unfold active.
    destruct p as [E|G]; simpl refresh; simpl list_call in Hrun;
      unfold LocalMain.main_refresh, EngineMain.main_refresh, bind, ret,
        get_state, put_state;
      destruct refresh_clicked; simpl;
      rewrite ?Hrun; simpl; try reflexivity;
      rewrite orb_false_r in Hon; rewrite Hon, Hrun; reflexivity.
Qed.

(** The session list is fetched only when the refresh flag is set or
    the refresh button pressed: otherwise the run changes nothing,
    whatever the backend would answer.  When it is fetched and the
    listing returns, the list replaces the stored one, the flag is
    cleared, and the active session and the user name stay. *)
Lemma refresh_step (p : program) (user_id : str) (refresh_clicked : bool)
  (w : world) :
  (refresh_sessions (state w) || refresh_clicked = false ->
   refresh p user_id refresh_clicked w = (Ok tt, w))
  /\ (refresh_sessions (state w) || refresh_clicked = true ->
      forall listed,
        fst (list_call p user_id w) = Ok listed ->
        exists out,
          refresh p user_id refresh_clicked w
          = (Ok tt,
             mk_world (mk_state (active w) listed false (user_name (state w)))
               (screen w ++ out))).
Proof.
  exact (refresh_cases p user_id refresh_clicked w).
Qed.

(** A first run against a service that lists one session, and a run
    with the flag cleared against the same service. *)
Lemma refresh_step_example :
  (exists out,
     refresh (Local (local_env (answers (json_response 200 "[{'id': 's1'}]"))))
       (py "test_user") false fresh
     = (Ok tt,
        mk_world
          (mk_state (active fresh) (VList [VDict [(py "id", VStr (py "s1"))]]) false
             (user_name (state fresh)))
          (screen fresh ++ out)))
  /\ refresh (Local (local_env (answers (json_response 200 "[{'id': 's1'}]"))))
       (py "test_user") false chatting
     = (Ok tt, chatting).
Proof.
  split.
  - apply (proj2 (refresh_step
                    (Local (local_env (answers (json_response 200 "[{'id': 's1'}]"))))
                    (py "test_user") false fresh)); reflexivity.
  - apply (proj1 (refresh_step
                    (Local (local_env (answers (json_response 200 "[{'id': 's1'}]"))))
                    (py "test_user") false chatting)); reflexivity.
Defined.

(** The two ends of the delete button. *)
Lemma delete_button_cases (p : program) (user_id session_id : str) (w : world)
  (deleted : bool) :
  fst (delete_call p user_id session_id w) = Ok deleted ->
  exists out,
    snd (delete_call p user_id session_id w) = with_shown w out
    /\ if deleted then
         exists note,
           delete_button p user_id session_id w
           = (Raise rerun,
              mk_world
                (mk_state
                   (if is_str session_id (active w) then VNone else active w)
                   (sessions (state w)) true (user_name (state w)))
                (screen w ++ out ++ [USuccess note]))
       else delete_button p user_id session_id w = (Ok tt, with_shown w out).
Proof.
  intros Hdel.
  destruct (oblivious_delete_call p user_id session_id) as (r & out & Hrun).
  rewrite Hrun in Hdel |- *. simpl in Hdel. subst r. exists out.
  split; [reflexivity|]. unfold active.
  destruct deleted.
  - destruct p as [E|G];
      [exists (py "Session deleted!") | exists (py "Sessione eliminata!")];
      simpl delete_button; simpl delete_call in Hrun;
      unfold AppLocal.main_delete_button, AppAgentEngine.main_delete_button, bind;
      rewrite Hrun; simpl;
      destruct (is_str session_id (Streamlit.session_id (state w)));
      simpl; now rewrite <- app_assoc.
  - destruct p as [E|G]; simpl delete_button; simpl delete_call in Hrun;
      unfold AppLocal.main_delete_button, AppAgentEngine.main_delete_button, bind;
      rewrite Hrun; reflexivity.
Qed.

(** The delete button besides the active session: a delete call that
    succeeds sets the refresh flag, keeps the stored list and the user
    name, shows the success note last and asks for a rerun; one that
    fails changes no state, shows nothing of its own and asks for no
    rerun. *)
Lemma delete_button_outcome (p : program) (user_id session_id : str) (w : world)
  (deleted : bool) :
  fst (delete_call p user_id session_id w) = Ok deleted ->
  exists out,
    snd (delete_call p user_id session_id w) = with_shown w out
    /\ if deleted then
         exists note,
           delete_button p user_id session_id w
           = (Raise rerun,
              mk_world
                (mk_state
                   (if is_str session_id (active w) then VNone else active w)
                   (sessions (state w)) true (user_name (state w)))
                (screen w ++ out ++ [USuccess note]))
       else delete_button p user_id session_id w = (Ok tt, with_shown w out).
Proof.
  exact (delete_button_cases p user_id session_id w deleted).
Qed.

(** A service that answers the delete request with 404. *)
Lemma delete_button_outcome_example :
  exists out,
    snd (delete_call
           (Local (local_env (answers (json_response 404 "{'detail': 'gone'}"))))
           (py "test_user") (py "s1") chatting)
    = with_shown chatting out
    /\ delete_button
         (Local (local_env (answers (json_response 404 "{'detail': 'gone'}"))))
         (py "test_user") (py "s1") chatting
       = (Ok tt, with_shown chatting out).
Proof.
  apply (delete_button_outcome
           (Local (local_env (answers (json_response 404 "{'detail': 'gone'}"))))
           (py "test_user") (py "s1") chatting false eq_refl).
Defined.

(* ================================================================== *)
(** ** The chat area *)

(** In both programs: without an active session the chat area shows
    the hint to select or create one and nothing else, whatever was
    typed and whatever the backend would answer.  With an active
    session whose details the lookup returns as [None] or as an empty
    dictionary, it shows what the lookup showed and then the error that
    the details could not be loaded; the session stays active.  With
    details that are truthy, these are a dictionary, and when nothing
    was typed the chat area is the display of their history. *)
Lemma chat_area_cases (p : program) (user_id : str) (user_message : option str)
  (w : world) :
  (truthy (active w) = false ->
   chat_area p user_id user_message w
   = (Ok tt, with_shown w [UInfo (select_or_create p)]))
  /\ (truthy (active w) = true ->
      forall details,
        fst (get_call p user_id (active w) w) = Ok details ->
        exists out,
          snd (get_call p user_id (active w) w) = with_shown w out
          /\ (truthy details = false ->
              chat_area p user_id user_message w
              = (Ok tt, with_shown w (out ++ [UError (could_not_load p)])))
          /\ (truthy details = true ->
              exists d,
                details = VDict d
                /\ chat_area p user_id None w = history p d (with_shown w out))).
Proof.
  split.
  - intros Hoff. unfold active in Hoff.
    destruct p as [E|G]; simpl;
      unfold LocalMain.main_chat_area, EngineMain.main_chat_area, bind, get_state;
      rewrite Hoff; reflexivity.
  - intros Hon details Hget.
    pose proof (get_session_shape p user_id (active w) w) as Hshape.
    rewrite Hget in Hshape.
    destruct (oblivious_get_call p user_id (active w)) as (r & out & Hrun).
    rewrite Hrun in Hget |- *. simpl in Hget. subst r. exists out.
    split; [reflexivity|]. unfold active in *.
    split.
    + intros Hfalsy.
      destruct p as [E|G]; simpl; simpl get_call in Hrun;
        unfold LocalMain.main_chat_area, EngineMain.main_chat_area, bind, get_state;
        rewrite Hon, Hrun, Hfalsy; unfold st_error, show, with_shown; simpl;
        now rewrite <- app_assoc.
    + intros Htruthy.
      destruct Hshape as [-> | Hdict]; [discriminate Htruthy|].
      destruct details as [| | | | | |d]; try discriminate Hdict.
      exists d. split; [reflexivity|].
      destruct p as [E|G]; simpl; simpl get_call in Hrun;
        unfold LocalMain.main_chat_area, EngineMain.main_chat_area, bind, get_state;
        rewrite Hon, Hrun, Htruthy;
        [destruct (AppLocal.display_conversation_history d (with_shown w out))
           as [[[]|e] w']
        |destruct (AppAgentEngine.display_conversation_history G d (with_shown w out))
           as [[[]|e] w']];
        reflexivity.
Qed.

(** The session [s1] is active and the service answers every request
    with 404: the error of the lookup, then the error of the chat area;
    and the same service with no session active. *)
Lemma chat_area_cases_example :
  (exists out,
     snd (get_call
            (Local (local_env (answers (json_response 404 "{'detail': 'gone'}"))))
            (py "test_user") (active chatting) chatting)
     = with_shown chatting out
     /\ chat_area
          (Local (local_env (answers (json_response 404 "{'detail': 'gone'}"))))
          (py "test_user") (Some (py "hello")) chatting
        = (Ok tt,
           with_shown chatting
             (out ++ [UError
                        (could_not_load
                           (Local (local_env (answers
                              (json_response 404 "{'detail': 'gone'}")))))])))
  /\ chat_area
       (Local (local_env (answers (json_response 404 "{'detail': 'gone'}"))))
       (py "test_user") (Some (py "hello")) fresh
     = (Ok tt,
        with_shown fresh
          [UInfo (select_or_create
                    (Local (local_env (answers
                       (json_response 404 "{'detail': 'gone'}")))))]).
Proof.
  split.
  - destruct (proj2 (chat_area_cases
                       (Local (local_env (answers
                          (json_response 404 "{'detail': 'gone'}"))))
                       (py "test_user") (Some (py "hello")) chatting)
                eq_refl VNone eq_refl) as (out & Hout & Hfalsy & _).
    exists out. split; [exact Hout | now apply Hfalsy].
  - apply (proj1 (chat_area_cases
                    (Local (local_env (answers
                       (json_response 404 "{'detail': 'gone'}"))))
                    (py "test_user") (Some (py "hello")) fresh)); reflexivity.
Defined.

(* ================================================================== *)
(** ** The history on events that are not of the data model *)

Lemma for_each_app {A} (body : A -> M unit) (l1 l2 : list A) (w : world) :
  for_each body (l1 ++ l2) w
  = match for_each body l1 w with
    | (Ok _, w') => for_each body l2 w'
    | (Raise e, w') => (Raise e, w')
    end.
Proof.
  revert w. induction l1 as [|x l1 IH]; intros w; simpl; [reflexivity|].
  unfold bind. destruct (body x w) as [[[]|e] w']; [apply IH | reflexivity].
Qed.

Section Malformed.

Variable text_of : value -> result str.
Hypothesis text_of_str : forall s, text_of (VStr s) = Ok s.

Lemma show_event_parts_error (event : value) (e : exn) (w : world) :
  engine_parts event = Some (Raise e) ->
  show_event text_of event w = (Raise e, w).
Proof.
  unfold engine_parts, show_event.
  destruct event as [| | | | | |ed]; try discriminate.
  destruct (get (py "content") (VDict []) ed) as [| | | | | |cd]; try discriminate.
  intros [= Hit]. unfold bind, lift. now rewrite Hit.
Qed.

Lemma display_history_aborts (no_history : str)
  (session_details : list (str * value)) (good : list value) (bad : value)
  (rest : list value) (e : exn) (w : world) :
  get (py "events") (VList []) session_details = VList (good ++ bad :: rest) ->
  forallb well_formed good = true ->
  engine_parts bad = Some (Raise e) ->
  display_history text_of no_history session_details w
  = (Raise e, with_shown w (reconstruct good)).
Proof.
  intros Hev Hgood Hbad. unfold display_history. rewrite Hev.
  replace (negb (truthy (VList (good ++ bad :: rest)))) with false
    by now destruct good.
  unfold bind, lift, iterate.
  rewrite for_each_app, (for_each_show_event text_of text_of_str good Hgood).
  simpl. unfold bind. now rewrite (show_event_parts_error bad e _ Hbad).
Qed.

End Malformed.

(** In both programs the display of the history stops at the first
    event whose parts cannot be iterated over (a null, a number): the
    messages of the events before it have been shown, those after it
    are not, and the [TypeError] reaches the caller. *)
Lemma history_aborts (p : program) (session_details : list (str * value))
  (good : list value) (bad : value) (rest : list value) (e : exn) (w : world) :
  get (py "events") (VList []) session_details = VList (good ++ bad :: rest) ->
  forallb well_formed good = true ->
  engine_parts bad = Some (Raise e) ->
  history p session_details w = (Raise e, with_shown w (reconstruct good)).
Proof.
  intros Hev Hgood Hbad. destruct p as [E|G]; simpl.
  - exact (display_history_aborts AppLocal.text_of (fun s => eq_refl) _
             session_details good bad rest e w Hev Hgood Hbad).
  - exact (display_history_aborts (AppAgentEngine.text_of G) (fun s => eq_refl) _
             session_details good bad rest e w Hev Hgood Hbad).
Qed.

(** The example of the specification followed by an event whose parts
    are null. *)
Lemma history_aborts_example :
  history (Engine unreachable_engine)
    [(py "events", VList (example_events ++ [null_parts_event]))] fresh
  = (Raise (not_iterable VNone),
     with_shown fresh [UChat (py "user") (VStr (py "hi"))]).
Proof.
  apply (history_aborts (Engine unreachable_engine)
           [(py "events", VList (example_events ++ [null_parts_event]))]
           example_events null_parts_event []
           (not_iterable VNone) fresh);
    reflexivity.
Defined.

Lemma local_join_parts_rejects (parts : list value) :
  forallb text_ok parts = false ->
  forall acc,
    join_parts AppLocal.text_of parts acc
    = Raise (type_error "can only concatenate str to str").
Proof.
  induction parts as [|part parts IH]; intros Hbad acc; simpl in Hbad;
    [discriminate|].
  simpl. apply andb_false_iff in Hbad.
  destruct part as [| | | | | |pd];
    try (destruct Hbad as [Hbad|Hbad]; [discriminate Hbad | now apply IH]).
  unfold text_ok in Hbad.
  destruct (dict_get (py "text") pd) as [[| | | |s| |]|];
    simpl; try reflexivity;
    destruct Hbad as [Hbad|Hbad]; try discriminate Hbad; now apply IH.
Qed.

(** A text that is neither a string nor null (a number, a list) is
    where the two programs part: the local display stops there with a
    [TypeError], having shown the messages of the events before. *)
Lemma local_history_rejects_text (session_details : list (str * value))
  (good : list value) (bad : value) (rest : list value) (parts : list value)
  (w : world) :
  get (py "events") (VList []) session_details = VList (good ++ bad :: rest) ->
  forallb well_formed good = true ->
  engine_parts bad = Some (Ok parts) ->
  forallb text_ok parts = false ->
  AppLocal.display_conversation_history session_details w
  = (Raise (type_error "can only concatenate str to str"),
     with_shown w (reconstruct good)).
Proof.
  intros Hev Hgood Hparts Hbad.
  unfold AppLocal.display_conversation_history, display_history. rewrite Hev.
  replace (negb (truthy (VList (good ++ bad :: rest)))) with false
    by now destruct good.
  unfold bind, lift, iterate.
  rewrite for_each_app,
    (for_each_show_event AppLocal.text_of (fun s => eq_refl) good Hgood).
  simpl. unfold bind.
  unfold engine_parts in Hparts. unfold show_event.
  destruct bad as [| | | | | |ed]; try discriminate Hparts.
  destruct (get (py "content") (VDict []) ed) as [| | | | | |cd];
    try discriminate Hparts.
  injection Hparts as Hit. unfold bind, lift. rewrite Hit.
  now rewrite (local_join_parts_rejects parts Hbad []).
Qed.

(** The example of the specification followed by an event whose text is
    the number 42. *)
Lemma local_history_rejects_text_example :
  AppLocal.display_conversation_history
    [(py "events", VList (example_events ++ [number_text_event]))] fresh
  = (Raise (type_error "can only concatenate str to str"),
     with_shown fresh [UChat (py "user") (VStr (py "hi"))]).
Proof.
  apply (local_history_rejects_text
           [(py "events", VList (example_events ++ [number_text_event]))]
           example_events number_text_event [] [VDict [(py "text", VInt 42)]] fresh);
    reflexivity.
Defined.

Lemma engine_join_parts_text (G : AppAgentEngine.env) (parts : list value) :
  forall acc,
    join_parts (AppAgentEngine.text_of G) parts acc
    = Ok (acc ++ List.concat (map (engine_history_part_text G) parts)).
Proof.
  induction parts as [|part parts IH]; intros acc; simpl.
  - now rewrite app_nil_r.
  - destruct part as [| | | | | |pd]; try apply IH.
    unfold engine_history_part_text.
    destruct (dict_get (py "text") pd) as [t|]; [|apply IH].
    destruct (is_none t); [apply IH|].
    unfold AppAgentEngine.text_of. rewrite IH. now rewrite app_assoc.
Qed.

Lemma engine_show_event_message (G : AppAgentEngine.env) (event : value)
  (w : world) :
  engine_event_ok event = true ->
  show_event (AppAgentEngine.text_of G) event w
  = (Ok tt, with_shown w (engine_history_message G event)).
Proof.
  unfold engine_event_ok, engine_history_message, engine_parts, show_event,
    shown_role, event_role, event_author, event_content.
  destruct event as [| | | | | |ed]; try (intros _; now rewrite with_shown_nil).
  destruct (get (py "content") (VDict []) ed) as [| | | | | |cd];
    try (intros _; now rewrite with_shown_nil).
  destruct (iterate (get (py "parts") (VList []) cd)) as [ps|e]; [|discriminate].
  intros _. unfold bind, lift.
  rewrite (engine_join_parts_text G ps []), app_nil_l.
  destruct (nonempty (strip (List.concat (map (engine_history_part_text G) ps)))).
  - destruct (is_str (py "user")
                (get (py "role") (get (py "author") (VStr (py "unknown")) ed) cd)
              || is_str (py "user") (get (py "author") (VStr (py "unknown")) ed));
      reflexivity.
  - unfold ret. now rewrite with_shown_nil.
Qed.

Lemma engine_for_each_show_event (G : AppAgentEngine.env) (events : list value) :
  forallb engine_event_ok events = true ->
  forall w,
    for_each (show_event (AppAgentEngine.text_of G)) events w
    = (Ok tt, with_shown w (flat_map (engine_history_message G) events)).
Proof.
  induction events as [|event events IH]; intros Hok w; simpl.
  - unfold ret. now rewrite with_shown_nil.
  - simpl in Hok. apply andb_true_iff in Hok as [He Hes].
    unfold bind. rewrite (engine_show_event_message G event w He).
    rewrite (IH Hes). now rewrite with_shown_app.
Qed.

(** The engine adapter turns every text into a string: as long as the
    events form a list and the parts of each can be iterated over, the
    display of the history never raises, whatever the events, contents,
    parts and texts are; it shows one message per event whose
    concatenated text is not blank, or the note when there is no
    event. *)
Lemma engine_history_any_text (G : AppAgentEngine.env)
  (session_details : list (str * value)) (events : list value) (w : world) :
  get (py "events") (VList []) session_details = VList events ->
  forallb engine_event_ok events = true ->
  AppAgentEngine.display_conversation_history G session_details w
  = (Ok tt,
     with_shown w
       match events with
       | [] =>
         [UInfo (py "Nessuna conversazione al momento. Invia un messaggio per iniziare!")]
       | _ => flat_map (engine_history_message G) events
       end).
Proof.
  intros Hev Hok.
  unfold AppAgentEngine.display_conversation_history, display_history.
  rewrite Hev. destruct events as [|event events]; [reflexivity|].
  unfold truthy, negb, bind, lift, iterate.
  now rewrite (engine_for_each_show_event G (event :: events) Hok).
Qed.

(** The event whose text is the number 42, in the engine adapter. *)
Lemma engine_history_any_text_example :
  AppAgentEngine.display_conversation_history unreachable_engine
    [(py "events", VList [number_text_event])] fresh
  = (Ok tt, with_shown fresh [UChat (py "assistant") (VStr (py "42"))]).
Proof.
  apply (engine_history_any_text unreachable_engine
           [(py "events", VList [number_text_event])] [number_text_event] fresh);
    reflexivity.
Defined.

(* ================================================================== *)
(** ** The first chat script *)

Lemma conversation_app (l1 l2 : list AppOld.message) :
  conversation l1 -> conversation l2 -> conversation (l1 ++ l2).
Proof.
  intros H1 H2. induction H1 as [|p rest _ IH|p a rest _ IH]; simpl.
  - exact H2.
  - now apply conversation_unanswered.
  - now apply conversation_answered.
Qed.

(** What one run stores and shows. *)
Lemma old_run_cases (query : str -> result value) (prompt : option str)
  (messages : list AppOld.message) :
  exists (added : list AppOld.message) (notes : list ui),
    stored (AppOld.run query prompt messages) = messages ++ added
    /\ conversation added
    /\ (List.length added <= 2)%nat
    /\ displayed (AppOld.run query prompt messages)
       = map AppOld.shows (messages ++ added) ++ notes
    /\ (notes = []
        \/ exists p e,
             prompt = Some p /\ query p = Raise e /\ is_Exception e = true
             /\ notes = [UError (py "Errore: " ++ exn_text e)]
             /\ added = [AppOld.mk_message (py "user") (VStr p)]).
Proof.
  unfold stored, displayed, AppOld.run.
  destruct prompt as [p|].
  - destruct (nonempty p).
    + destruct (query p) as [response|e] eqn:Hq.
      * exists [AppOld.mk_message (py "user") (VStr p);
                AppOld.mk_message (py "assistant") (AppOld.answer_of response)], [].
        simpl. rewrite app_nil_r, !map_app, <- !app_assoc. simpl.
        repeat split; auto.
        apply conversation_answered, conversation_nil.
      * destruct (is_Exception e) eqn:He.
        -- exists [AppOld.mk_message (py "user") (VStr p)],
             [UError (py "Errore: " ++ exn_text e)].
           simpl. rewrite !map_app. simpl.
           repeat split; auto.
           ++ apply conversation_unanswered, conversation_nil.
           ++ right. exists p, e. auto.
        -- exists [AppOld.mk_message (py "user") (VStr p)], [].
           simpl. rewrite app_nil_r, !map_app. simpl.
           repeat split; auto.
           apply conversation_unanswered, conversation_nil.
    + exists [], []. simpl. rewrite !app_nil_r.
      repeat split; auto. apply conversation_nil.
  - exists [], []. simpl. rewrite !app_nil_r.
    repeat split; auto. apply conversation_nil.
Qed.

(** One run of the first chat script, from what was typed and what the
    agent does.  Without a prompt the history is shown and nothing is
    stored.  With a prompt the user's message is stored whatever
    happens next; the answer is stored after it exactly when the agent
    returns one.  At the end of the run the screen holds the whole
    stored history in order, followed by one error box exactly when the
    agent raised an ordinary exception; the run itself ends normally
    unless the agent raised something that is no ordinary exception,
    which leaves the run. *)
Lemma old_run_outcome (query : str -> result value) (prompt : option str)
  (messages : list AppOld.message) :
  (typed prompt = None ->
   AppOld.run query prompt messages
   = (messages, map AppOld.shows messages, Ok tt))
  /\ (forall p response,
        typed prompt = Some p -> query p = Ok response ->
        AppOld.run query prompt messages
        = (messages ++ [user_message p; answer_message response],
           map AppOld.shows
             (messages ++ [user_message p; answer_message response]),
           Ok tt))
  /\ (forall p e,
        typed prompt = Some p -> query p = Raise e ->
        AppOld.run query prompt messages
        = (messages ++ [user_message p],
           map AppOld.shows (messages ++ [user_message p])
             ++ (if is_Exception e
                 then [UError (py "Errore: " ++ exn_text e)] else []),
           if is_Exception e then Ok tt else Raise e)).
Proof.
  unfold typed, AppOld.run, user_message, answer_message.
  split; [|split].
  - destruct prompt as [p|]; [|reflexivity].
    destruct (nonempty p); [discriminate|reflexivity].
  - intros p response Hp Hq.
    destruct prompt as [p'|]; [|discriminate Hp].
    destruct (nonempty p'); [|discriminate Hp].
    injection Hp as ->. rewrite Hq.
    rewrite !map_app, <- !app_assoc. reflexivity.
  - intros p e Hp Hq.
    destruct prompt as [p'|]; [|discriminate Hp].
    destruct (nonempty p'); [|discriminate Hp].
    injection Hp as ->. rewrite Hq.
    rewrite !map_app.
    destruct (is_Exception e); [reflexivity|].
    now rewrite app_nil_r.
Qed.

(** A first question that is answered, and a second one on which the
    agent fails. *)
Lemma old_run_outcome_example :
  AppOld.run answering (Some (py "ciao")) []
  = ([user_message (py "ciao"); AppOld.mk_message (py "assistant") (VStr (py "salve"))],
     [UChat (py "user") (VStr (py "ciao"));
      UChat (py "assistant") (VStr (py "salve"))],
     Ok tt)
  /\ AppOld.run failing (Some (py "e poi?"))
       [user_message (py "ciao");
        AppOld.mk_message (py "assistant") (VStr (py "salve"))]
     = ([user_message (py "ciao");
         AppOld.mk_message (py "assistant") (VStr (py "salve"));
         user_message (py "e poi?")],
        [UChat (py "user") (VStr (py "ciao"));
         UChat (py "assistant") (VStr (py "salve"));
         UChat (py "user") (VStr (py "e poi?"));
         UError (py "Errore: quota exceeded")],
        Ok tt).
Proof.
  split.
  - apply (proj1 (proj2 (old_run_outcome answering (Some (py "ciao")) []))
             (py "ciao") (VDict [(py "output", VStr (py "salve"))]));
      reflexivity.
  - apply (proj2 (proj2 (old_run_outcome failing (Some (py "e poi?"))
                           [user_message (py "ciao");
                            AppOld.mk_message (py "assistant") (VStr (py "salve"))]))
             (py "e poi?") (mk_exn OtherException (py "quota exceeded")));
      reflexivity.
Defined.

(** Over any number of runs, whatever is typed and whatever the agent
    does, the history is append-only: what was stored stays at the
    front, unchanged; and what is added is a sequence of user messages,
    each followed by at most one answer, so starting from an empty
    history no answer is ever stored without its question. *)
Lemma old_runs_append_only (query : str -> result value)
  (prompts : list (option str)) :
  forall messages : list AppOld.message,
    exists added,
      AppOld.runs query prompts messages = messages ++ added
      /\ conversation added
      /\ (List.length added <= 2 * List.length prompts)%nat.
Proof.
  induction prompts as [|prompt prompts IH]; intros messages.
  - exists []. simpl. rewrite app_nil_r. split; [reflexivity|].
    split; [apply conversation_nil | lia].
  - simpl AppOld.runs.
    destruct (old_run_cases query prompt messages)
      as (added1 & notes & Hst & Hc1 & Hlen1 & _).
    unfold stored in Hst. rewrite Hst.
    destruct (IH (messages ++ added1)) as (added2 & Hruns & Hc2 & Hlen2).
    exists (added1 ++ added2). rewrite Hruns, <- app_assoc.
    split; [reflexivity|].
    split; [now apply conversation_app|].
    rewrite length_app. simpl List.length. lia.
Qed.

(* ================================================================== *)
(** ** Mutations and the stored session list *)

(** In both programs the stored session list does not stay stale after
    a mutation.  [p] is the program in front of the backend as it is
    when the button is pressed, [p'] the program in front of the backend
    as it is on the run that follows, which may list other sessions
    than before.  After a successful delete, or a create that returned
    an id, that run fetches the list without the refresh button being
    pressed: the stored list is what the backend lists then, whatever
    was stored and whatever the backend listed before, and the flag is
    cleared. *)
Lemma mutation_then_refresh (p p' : program) (user_id session_id : str)
  (w : world) (listed : value) :
  fst (list_call p' user_id w) = Ok listed ->
  (fst (delete_call p user_id session_id w) = Ok true ->
   let w' := snd (refresh p' user_id false
                    (snd (delete_button p user_id session_id w))) in
   sessions (state w') = listed /\ refresh_sessions (state w') = false)
  /\ (forall new_session_id,
        fst (create_call p user_id w) = Ok new_session_id ->
        truthy new_session_id = true ->
        let w' := snd (refresh p' user_id false (snd (create_button p user_id w))) in
        sessions (state w') = listed
        /\ refresh_sessions (state w') = false
        /\ active w' = new_session_id).
Proof.
  intros Hlist.
  destruct (oblivious_list_call p' user_id) as (r & out & Hrun).
  rewrite Hrun in Hlist. simpl in Hlist. subst r.
  split.
  - intros Hdel w'.
    destruct (delete_button_cases p user_id session_id w true Hdel)
      as (out1 & _ & note & Hbutton).
    subst w'. rewrite Hbutton. simpl snd.
    destruct (proj2 (refresh_cases p' user_id false
                       (mk_world
                          (mk_state
                             (if is_str session_id (active w) then VNone
                              else active w)
                             (sessions (state w)) true (user_name (state w)))
                          (screen w ++ out1 ++ [USuccess note])))
                eq_refl listed) as (out2 & Href).
    + now rewrite Hrun.
    + now rewrite Href.
  - intros new_session_id Hcreate Htruthy w'.
    pose proof (create_button_state p user_id w new_session_id Hcreate) as Hact.
    simpl in Hact. rewrite Htruthy in Hact. destruct Hact as [Hactive Hflag].
    subst w'.
    destruct (proj2 (refresh_cases p' user_id false (snd (create_button p user_id w)))
                (eq_trans (orb_false_r _) Hflag) listed) as (out2 & Href).
    + now rewrite Hrun.
    + rewrite Href. simpl. unfold active in Hactive |- *. auto.
Qed.

(** The session [s1] is listed, stored and active; it is deleted, and
    the backend lists no session any more: the stored list is empty
    after the next run. *)
Lemma mutation_then_refresh_example :
  sessions (state listing_s1) = VList [VDict [(py "id", VStr (py "s1"))]]
  /\ sessions
       (state
          (snd (refresh (Local (local_env (answers (json_response 200 "[]"))))
                  (py "test_user") false
                  (snd (delete_button (Local (local_env backend_with_s1))
                          (py "test_user") (py "s1") listing_s1)))))
     = VList []
  /\ refresh_sessions
       (state
          (snd (refresh (Local (local_env (answers (json_response 200 "[]"))))
                  (py "test_user") false
                  (snd (delete_button (Local (local_env backend_with_s1))
                          (py "test_user") (py "s1") listing_s1)))))
     = false.
Proof.
  split; [reflexivity|].
  apply (proj1 (mutation_then_refresh
                  (Local (local_env backend_with_s1))
                  (Local (local_env (answers (json_response 200 "[]"))))
                  (py "test_user") (py "s1") listing_s1 (VList []) eq_refl)).
  reflexivity.
Defined.
